(** * Shallow embedding of the library organizer ([generate_organization.py])
      and of the screenshot helper ([frontend/scripts/selenium-screenshot.py]).

    Modelling conventions.
    - Python [str] values are Rocq [string]s (ASCII text); [str.lower] maps
      'A'..'Z' to 'a'..'z' and leaves every other character unchanged, which
      is what Python does on ASCII text.
    - [word in combined] is substring containment, [contains].
    - Book widths are Python floats whose values are all multiples of 1/4;
      sums of such floats are exact (far below 2^51 quarter inches), so they
      are modelled exactly as rationals [Q].
    - A CSV row read by [csv.DictReader] is a [dict[str, str]]: an
      association list [record] looked up with [dict.get].
    - Python exceptions are the [Err] results of a small error monad. *)

From Stdlib Require Import String Ascii ZArith QArith Lqa List Bool Lia.
From Stdlib Require Import Sorted Permutation.
Import ListNotations.
Open Scope string_scope.

(** ** Python strings *)

Module PyStr.

Definition lower_char (c : ascii) : ascii :=
  let n := nat_of_ascii c in
  if (65 <=? n)%nat && (n <=? 90)%nat then ascii_of_nat (n + 32) else c.

(** [str.lower] *)
Fixpoint lower (s : string) : string :=
  match s with
  | EmptyString => EmptyString
  | String c t => String (lower_char c) (lower t)
  end.

(** [hay.startswith(needle)] *)
Fixpoint startswith (needle hay : string) : bool :=
  match needle, hay with
  | EmptyString, _ => true
  | String _ _, EmptyString => false
  | String c n, String d h => Ascii.eqb c d && startswith n h
  end.

(** [needle in hay] *)
Fixpoint contains (needle hay : string) : bool :=
  startswith needle hay ||
  match hay with
  | EmptyString => false
  | String _ h => contains needle h
  end.

(** [any(word in combined for word in words)] *)
Definition any_in (words : list string) (combined : string) : bool :=
  existsb (fun w => contains w combined) words.

End PyStr.

Import PyStr.

(** ** Page-count based width estimate *)

Open Scope Q_scope.

(** [estimate_book_width(pages: Optional[int]) -> float]; [not pages] holds
    for [None] and for [0]. *)
Definition estimate_book_width (pages : option Z) : Q :=
  match pages with
  | None => 1
  | Some p =>
      if (p =? 0)%Z || (p <=? 0)%Z then 1
      else if (p <=? 100)%Z then 1 # 2
      else if (p <=? 200)%Z then 3 # 4
      else if (p <=? 300)%Z then 1
      else if (p <=? 500)%Z then 5 # 4
      else if (p <=? 750)%Z then 3 # 2
      else 2
  end.

(** The width table as the specification words it (section 4.3). *)
Definition spec_width_table (pages : option Z) : Q :=
  match pages with
  | None => 1
  | Some p =>
      if (p <=? 0)%Z then 1
      else if (p <=? 100)%Z then 1 # 2
      else if (p <=? 200)%Z then 3 # 4
      else if (p <=? 300)%Z then 1
      else if (p <=? 500)%Z then 5 # 4
      else if (p <=? 750)%Z then 3 # 2
      else 2
  end.


(** ** Shelf classifiers *)

Module Classify.

Definition lower_or_empty (s : string) : string :=
  if String.eqb s "" then "" else lower s.

(** The f-string [f"{title_lower} {tags_lower} {group_lower} {desc_lower}"]. *)
Definition combined_text (title tags group description : string) : string :=
  lower title ++ " " ++ lower_or_empty tags ++ " " ++ lower_or_empty group
  ++ " " ++ lower_or_empty description.

(** [categorize_book]: the default categorizer of [calculate_space_usage]. *)
Definition categorize_book (title tags group description : string)
  : string * Z :=
  let combined := combined_text title tags group description in
  if any_in ["genki"; "tobira"; "integrated chinese"; "kanji for international"]
       combined then ("office_a", 1%Z)
  else if any_in ["algorithms"; "clean code"; "programming language"; "knuth";
                  "art of computer"] combined then ("office_a", 2%Z)
  else if any_in ["physics"; "chemistry"] combined && contains "textbook" combined
  then ("office_a", 3%Z)
  else if any_in ["kant"; "groundwork"; "nietzsche"; "republic"; "analects"]
            combined then ("office_a", 4%Z)
  else if any_in ["writer's reference"; "writing"; "professional"] combined
  then ("office_a", 5%Z)
  else if any_in ["japanese"; "chinese"; "korean"; "language"; "dictionary";
                  "grammar"] combined && negb (contains "cooking" combined) then
    if contains "japanese" combined || contains "kanji" combined
    then ("dining", 1%Z)
    else if contains "chinese" combined then ("dining", 2%Z)
    else ("dining", 3%Z)
  else if any_in ["history"; "historical"; "revolution"; "war"; "ancient";
                  "medieval"] combined then ("hallway", 1%Z)
  else if any_in ["dover"; "classics"; "poetry"; "shakespeare"; "literature";
                  "fiction"; "novel"] combined then ("hallway", 2%Z)
  else if any_in ["mathematics"; "math"; "dover"; "logic"; "science";
                  "reference"] combined then ("crate_v", 1%Z)
  else if any_in ["game"; "gaming"; "rpg"; "d&d"; "strategy"; "chess"] combined
  then ("office_b", 4%Z)
  else if any_in ["philosophy"; "political"; "ethics"; "tao"] combined
  then ("office_b", 1%Z)
  else if any_in ["textbook"; "academic"; "university"] combined
  then ("office_b", 2%Z)
  else if any_in ["uncle john"; "essay"; "anthology"; "collection"] combined
  then ("office_b", 3%Z)
  else if any_in ["cooking"; "cook"; "food"; "recipe"; "kitchen"; "culinary"]
            combined then
    if any_in ["asian"; "japanese"; "chinese"; "sushi"; "wok"] combined
    then ("dining", 1%Z)
    else if any_in ["bittman"; "international"; "global"] combined
    then ("dining", 2%Z)
    else ("dining", 3%Z)
  else ("crate_h", 1%Z).

(** [balanced_categorize_book]: the categorizer that [main] uses, through
    [iterative_balance]. *)
Definition balanced_categorize_book (title tags group description : string)
  : string * Z :=
  let combined := combined_text title tags group description in
  if any_in ["genki i"; "genki ii"; "tobira"; "clean code"] combined
  then ("office_a", 1%Z)
  else if any_in ["algorithms"; "art of computer"; "programming language"]
            combined then ("office_a", 2%Z)
  else if any_in ["physics"; "chemistry"] combined && contains "textbook" combined
  then ("office_a", 3%Z)
  else if any_in ["kant"; "groundwork"; "republic"] combined
  then ("office_a", 4%Z)
  else if any_in ["writer's reference"; "writing"] combined
  then ("office_a", 5%Z)
  else if any_in ["programming"; "computer"; "software"; "math"] combined
  then ("office_b", 1%Z)
  else if any_in ["philosophy"; "political"; "ethics"] combined
  then ("office_b", 2%Z)
  else if any_in ["reference"; "textbook"; "academic"] combined
  then ("office_b", 3%Z)
  else if any_in ["game"; "gaming"; "rpg"; "chess"; "strategy"] combined
  then ("office_b", 4%Z)
  else if any_in ["cooking"; "cook"; "food"; "recipe"; "kitchen"] combined
  then ("dining", 1%Z)
  else if any_in ["japanese"; "kanji"] combined
          && negb (contains "cooking" combined) then ("dining", 2%Z)
  else if any_in ["chinese"; "korean"; "language"] combined
          && negb (contains "cooking" combined) then ("dining", 3%Z)
  else if any_in ["fiction"; "novel"; "poetry"] combined then ("hallway", 1%Z)
  else if any_in ["uncle john"; "essay"; "anthology"] combined
  then ("hallway", 2%Z)
  else if any_in ["history"; "historical"; "war"; "revolution"] combined
  then ("crate_h", 1%Z)
  else if any_in ["dover"; "classics"; "literature"] combined
          && negb (contains "japanese" combined) then ("crate_v", 1%Z)
  else ("office_b", 2%Z).

End Classify.

Import Classify.

(** ** Python values: records, [int()], exceptions *)

Module Py.

(** A field value of a [csv.DictReader] row: a [str], or the [None] the
    reader stores (its [restval]) for each field a short row lacks. *)
Inductive value := VStr (s : string) | VNone.

(** A CSV row as produced by [csv.DictReader]: a [dict] from the header's
    field names to values. (The [None] key under which the reader keeps the
    extra fields of a long row is never read by the code and is left out.) *)
Definition record := list (string * value).

(** A row literal whose fields are all [str]s. *)
Definition row_of (l : list (string * string)) : record :=
  map (fun kv => (fst kv, VStr (snd kv))) l.

(** [d.get(k)] *)
Fixpoint dict_get (k : string) (d : record) : option value :=
  match d with
  | [] => None
  | (k', v) :: d' => if String.eqb k k' then Some v else dict_get k d'
  end.

(** [d.get(k, default)] with a [str] default. *)
Definition get_or (k default : string) (d : record) : value :=
  match dict_get k d with Some v => v | None => VStr default end.

(** [v == s] for a [str] literal [s]. *)
Definition value_is (v : value) (s : string) : bool :=
  match v with VStr t => String.eqb t s | VNone => false end.

(** A text argument as the categorizers' [x.lower() if x else ""] reads
    it: [None] is falsy, like [""]. *)
Definition text_of (v : value) : string :=
  match v with VStr t => t | VNone => "" end.

(** The exceptions the organizer can raise. *)
Inductive exc := KeyError | ZeroDivisionError | AttributeError.

Inductive result (A : Type) : Type :=
| Ok (a : A)
| Err (e : exc).
Arguments Ok {A} a.
Arguments Err {A} e.

Definition bind {A B} (c : result A) (k : A -> result B) : result B :=
  match c with Ok a => k a | Err e => Err e end.

Notation "x <- c ;; k" := (bind c (fun x => k))
  (at level 61, c at next level, right associativity).

(** [d[k]] *)
Definition dict_index (k : string) (d : record) : result value :=
  match dict_get k d with Some v => Ok v | None => Err KeyError end.

(** [a / b] on numbers. *)
Definition py_div (a b : Q) : result Q :=
  if Qeq_bool b 0 then Err ZeroDivisionError else Ok (a / b).

(** [int(s)] on a [str]: surrounding whitespace is stripped, an optional
    sign is read, then decimal digits with single underscores allowed
    between digits; anything else raises [ValueError] ([None]). *)
Definition is_py_space (c : ascii) : bool :=
  let n := nat_of_ascii c in
  (n =? 32)%nat || ((9 <=? n)%nat && (n <=? 13)%nat).

Fixpoint drop_spaces (l : list ascii) : list ascii :=
  match l with
  | c :: t => if is_py_space c then drop_spaces t else l
  | [] => []
  end.

Definition strip (l : list ascii) : list ascii :=
  rev (drop_spaces (rev (drop_spaces l))).

Definition digit_value (c : ascii) : option Z :=
  let n := nat_of_ascii c in
  if (48 <=? n)%nat && (n <=? 57)%nat then Some (Z.of_nat n - 48)%Z else None.

Fixpoint parse_digits (acc : Z) (prev_digit : bool) (l : list ascii)
  : option Z :=
  match l with
  | [] => if prev_digit then Some acc else None
  | c :: t =>
      match digit_value c with
      | Some d => parse_digits (acc * 10 + d)%Z true t
      | None =>
          if Ascii.eqb c "_"%char && prev_digit
          then parse_digits acc false t else None
      end
  end.

Definition py_int_of_string (s : string) : option Z :=
  match strip (list_ascii_of_string s) with
  | c :: t =>
      if Ascii.eqb c "-"%char then option_map Z.opp (parse_digits 0 false t)
      else if Ascii.eqb c "+"%char then parse_digits 0 false t
      else parse_digits 0 false (c :: t)
  | [] => None
  end.

End Py.

Import Py.

(** ** Space calculation *)

Module Space.

Record dims := mkDims { dim_rows : Z; dim_width : Z; dim_depth : Z }.

(** [SHELF_DIMENSIONS] (inches), in the dictionary's order. *)
Definition SHELF_DIMENSIONS : list (string * dims) :=
  [("office_a", mkDims 5 32 26);
   ("office_b", mkDims 4 32 26);
   ("dining",   mkDims 3 24 24);
   ("hallway",  mkDims 2 16 16);
   ("crate_h",  mkDims 1 32 12);
   ("crate_v",  mkDims 1 12 32)].

(** An entry of a row's ['items'] list. *)
Record book_entry := mkEntry {
  e_title : string; e_author : value; e_pages : Z; e_width : Q; e_item : record }.

Record row_usage := mkRow { row_width : Q; row_items : list book_entry }.

Record shelf_usage := mkShelf {
  su_rows : list (Z * row_usage);
  su_total_width : Q;
  su_available_width : Z;
  su_utilization : Q }.

Definition usage := list (string * shelf_usage).

(** A [categorizer_func]: title, tags, group, description and the full item.
    Each categorizer of the program ([categorize_book],
    [balanced_categorize_book], [adaptive_categorize_book]) opens with the
    same four lowercasing lines; a [categorizer] is what follows them, on
    the [str]s they produce (see [classify_item] and [add_book]). *)
Definition categorizer := string -> string -> string -> string -> record -> string * Z.

Definition default_categorizer : categorizer :=
  fun t g gr d _ => categorize_book t g gr d.

Definition balanced_categorizer : categorizer :=
  fun t g gr d _ => balanced_categorize_book t g gr d.

(** [range(1, n + 1)] *)
Definition range1 (n : Z) : list Z :=
  map (fun k => Z.of_nat k + 1)%Z (seq 0 (Z.to_nat n)).

(** The initialisation loop over [SHELF_DIMENSIONS]. *)
Definition init_shelf (d : dims) : shelf_usage :=
  mkShelf (map (fun r => (r, mkRow 0 [])) (range1 (dim_rows d)))
          0 (dim_width d * dim_rows d) 0.

Definition init_usage : usage :=
  map (fun '(id, d) => (id, init_shelf d)) SHELF_DIMENSIONS.

(** [d[k] = f(d[k])] on a dictionary; [KeyError] when [k] is absent. *)
Fixpoint assoc_update {K V} (eqk : K -> K -> bool) (k : K)
         (f : V -> result V) (l : list (K * V)) : result (list (K * V)) :=
  match l with
  | [] => Err KeyError
  | (k', v) :: l' =>
      if eqk k k' then (v' <- f v ;; Ok ((k', v') :: l'))
      else (l'' <- assoc_update eqk k f l' ;; Ok ((k', v) :: l''))
  end.

(** [pages = int(item.get('length', 0) or 0)], [ValueError] giving 0; an
    absent, [None] or empty length is falsy and gives [int(0)]. *)
Definition item_pages (item : record) : Z :=
  match dict_get "length" item with
  | None | Some VNone => 0%Z
  | Some (VStr s) =>
      if String.eqb s "" then 0%Z
      else match py_int_of_string s with Some p => p | None => 0%Z end
  end.

(** [categorizer_func(item.get('title', ''), item.get('tags', ''), ...)]
    with the arguments as the categorizers' first lines read them:
    [x.lower() if x else ""] for tags, group and description. The title's
    [title.lower()] raises [AttributeError] on [None]; [add_book] raises it
    before it classifies. *)
Definition classify_item (cat : categorizer) (item : record) : string * Z :=
  cat (text_of (get_or "title" "" item)) (text_of (get_or "tags" "" item))
      (text_of (get_or "group" "" item)) (text_of (get_or "description" "" item))
      item.

(** The body of [for item in items: if item['item_type'] == 'book': ...].
    The entry's title [item.get('title', 'Unknown')] is a [str] there: a
    [None] title raised at [title.lower()] in the categorizer. *)
Definition add_book (cat : categorizer) (su : usage) (item : record)
  : result usage :=
  match get_or "title" "" item with
  | VNone => Err AttributeError
  | VStr _ =>
  let '(shelf_id, row_num) := classify_item cat item in
  let pages := item_pages item in
  let width := estimate_book_width (Some pages) in
  let entry := mkEntry (text_of (get_or "title" "Unknown" item))
                       (get_or "creators" "Unknown" item) pages width item in
  assoc_update String.eqb shelf_id
    (fun s =>
       rows' <- assoc_update Z.eqb row_num
                  (fun r => Ok (mkRow (row_width r + width)
                                      (row_items r ++ [entry])))
                  (su_rows s) ;;
       Ok (mkShelf rows' (su_total_width s) (su_available_width s)
                   (su_utilization s)))
    su
  end.

Fixpoint process_items (cat : categorizer) (su : usage) (items : list record)
  : result usage :=
  match items with
  | [] => Ok su
  | item :: rest =>
      ty <- dict_index "item_type" item ;;
      if value_is ty "book"
      then (su' <- add_book cat su item ;; process_items cat su' rest)
      else process_items cat su rest
  end.

(** [sum(row['width'] for row in rows.values())] *)
Definition rows_total (rows : list (Z * row_usage)) : Q :=
  fold_left (fun acc '(_, r) => acc + row_width r) rows 0.

(** The "Calculate total usage" loop for one shelf. *)
Definition finish_shelf (s : shelf_usage) : result shelf_usage :=
  let total := rows_total (su_rows s) in
  u <- py_div total (inject_Z (su_available_width s)) ;;
  Ok (mkShelf (su_rows s) total (su_available_width s) (u * 100)).

Fixpoint finish_all (su : usage) : result usage :=
  match su with
  | [] => Ok []
  | (id, s) :: rest =>
      s' <- finish_shelf s ;; rest' <- finish_all rest ;; Ok ((id, s') :: rest')
  end.

(** [calculate_space_usage(items, categorizer_func)] *)
Definition calculate_space_usage (cat : categorizer) (items : list record)
  : result usage :=
  su <- process_items cat init_usage items ;; finish_all su.

End Space.

Import Space.

(** ** Main flow of the organizer *)

Module Organizer.

(** [iterative_balance(items)]: one pass of the balanced categorizer. *)
Definition iterative_balance (items : list record) : result (usage * Z) :=
  su <- calculate_space_usage balanced_categorizer items ;; Ok (su, 1%Z).

(** One event of reading a CSV file: a row yielded by the reader, or an
    exception raised while opening, decoding or parsing the file. *)
Inductive read_event := RRow (row : record) | RError.

Record csv_file := mkFile { path : string; events : list read_event }.

Inductive log_line := LogReadError (p : string).

(** [row.get('item_type') in ['book', 'videogame', 'music']] *)
Definition recognized (row : record) : bool :=
  match dict_get "item_type" row with
  | Some (VStr k) => existsb (String.eqb k) ["book"; "videogame"; "music"]
  | Some VNone | None => false
  end.

(** The [for row in reader] loop; the flag tells whether an exception left it. *)
Fixpoint read_rows (evs : list read_event) (items : list record)
  : list record * bool :=
  match evs with
  | [] => (items, false)
  | RError :: _ => (items, true)
  | RRow row :: evs' =>
      read_rows evs' (if recognized row then items ++ [row] else items)
  end.

(** [parse_csv_file(filepath)]: the items and the lines printed. *)
Definition parse_csv_file (f : csv_file) : list record * list log_line :=
  let '(items, failed) := read_rows (events f) [] in
  (items, if failed then [LogReadError (path f)] else []).

(** The [for csv_file in csv_files] loop of [main]. *)
Fixpoint collect_items (files : list csv_file) (all_items : list record)
         (log : list log_line) : list record * list log_line :=
  match files with
  | [] => (all_items, log)
  | f :: fs =>
      let '(items, l) := parse_csv_file f in
      collect_items fs (all_items ++ items) (log ++ l)
  end.

(** ** Utilization banners of [generate_html] *)

Definition ORGANIZATION_shelves : list string :=
  ["office_a"; "office_b"; "dining"; "hallway"; "crate_h"; "crate_v"].

Inductive band := OverCapacity | NearCapacity | GoodCapacity.

(** [if utilization > 90: ... elif utilization > 75: ... else: ...] *)
Definition status_class (utilization : Q) : band :=
  if negb (Qle_bool utilization 90) then OverCapacity
  else if negb (Qle_bool utilization 75) then NearCapacity
  else GoodCapacity.

Fixpoint lookup_shelf (id : string) (su : usage) : option shelf_usage :=
  match su with
  | [] => None
  | (id', s) :: rest => if String.eqb id id' then Some s else lookup_shelf id rest
  end.

(** [space_usage.get(shelf_id, {}).get('utilization', 0)] *)
Definition utilization_of (su : usage) (id : string) : Q :=
  match lookup_shelf id su with Some s => su_utilization s | None => 0 end.

(** The banner loop: shelf, utilization shown, band. *)
Definition utilization_banners (su : usage) : list (string * Q * band) :=
  map (fun id => (id, utilization_of su id, status_class (utilization_of su id)))
      ORGANIZATION_shelves.

End Organizer.

Import Organizer.

(** ** The screenshot helper *)

Module Screenshot.

Inductive wait_outcome := Ready | WaitTimeout | WaitError.

(** What each call of [capture_screenshot] does in a given environment:
    whether it raises, and for [save_screenshot] the boolean it returns
    (selenium returns [False] when it cannot write the file). *)
Record browser_env := mkEnv {
  create_raises : bool;       (* webdriver.Chrome(options=...) *)
  get_raises : bool;          (* driver.get(url) *)
  ready_wait : wait_outcome;  (* WebDriverWait(driver, 10).until(...) *)
  sleep_raises : bool;        (* time.sleep(wait_seconds) *)
  save_raises : bool;         (* driver.save_screenshot(output_path) *)
  save_returns : bool;
  quit_raises : bool          (* driver.quit() *)
}.

Inductive py_outcome := Returned (b : bool) | Raised.

(** The [try] body: whether [driver] was assigned, and whether it raised. *)
Definition try_body (env : browser_env) : bool * bool :=
  if create_raises env then (false, true)
  else if get_raises env then (true, true)
  else match ready_wait env with
       | Ready =>
           if sleep_raises env then (true, true)
           else if save_raises env then (true, true)
           else let _ := save_returns env in (true, false)
       | WaitTimeout | WaitError => (true, true)
       end.

(** [capture_screenshot]: [return True] at the end of the body, [return False]
    in [except Exception], then [finally: if driver: driver.quit()], whose
    exception would replace the pending return. *)
Definition capture_screenshot (env : browser_env) : py_outcome :=
  let '(driver_set, raised) := try_body env in
  let ret := if raised then false else true in
  if driver_set then (if quit_raises env then Raised else Returned ret)
  else Returned ret.

(** [sys.exit(0 if success else 1)]; an uncaught exception ends the
    interpreter with status 1. *)
Definition exit_code (env : browser_env) : Z :=
  match capture_screenshot env with
  | Returned true => 0
  | Returned false => 1
  | Raised => 1
  end%Z.

End Screenshot.

Import Screenshot.

(** ** Measures and sample inputs used by the statements *)

Module Measures.

(** Sum of a measure over the values of an association list. *)
Definition sum_by {K V} (m : V -> Q) (l : list (K * V)) : Q :=
  fold_right (fun kv acc => m (snd kv) + acc) 0 l.

(** Sum over all shelves and rows of the accumulated row widths. *)
Definition usage_rows_total (su : usage) : Q :=
  sum_by (fun s => sum_by row_width (su_rows s)) su.

Definition is_book (item : record) : bool :=
  match dict_get "item_type" item with
  | Some k => value_is k "book"
  | None => false
  end.

(** A record whose kind is present and is not ["book"]. *)
Definition is_non_book (item : record) : bool :=
  match dict_get "item_type" item with
  | Some k => negb (value_is k "book")
  | None => false
  end.

(** Sum of the estimated widths of the book records. *)
Definition books_width_total (items : list record) : Q :=
  fold_right (fun it acc => estimate_book_width (Some (item_pages it)) + acc) 0
             (filter is_book items).

(** Shelf ids with their row keys and available widths. *)
Definition shape (su : usage) : list (string * (list Z * Z)) :=
  map (fun p => (fst p, (map fst (su_rows (snd p)), su_available_width (snd p)))) su.

Definition configured_shape : list (string * (list Z * Z)) :=
  map (fun p => (fst p, (range1 (dim_rows (snd p)),
                         (dim_width (snd p) * dim_rows (snd p))%Z)))
      SHELF_DIMENSIONS.

(** The (shelf, row) pair names an initialised row. *)
Definition in_targets (t : string * Z) : bool :=
  existsb (fun e => String.eqb (fst t) (fst e) && existsb (Z.eqb (snd t)) (fst (snd e)))
          configured_shape.


Definition has_item_type (item : record) : Prop := dict_get "item_type" item <> None.

(** The rows a reader yields before its first exception. *)
Fixpoint rows_before_error (evs : list read_event) : list record :=
  match evs with
  | [] => []
  | RError :: _ => []
  | RRow r :: evs' => r :: rows_before_error evs'
  end.

Definition raises_error (evs : list read_event) : bool :=
  existsb (fun e => match e with RError => true | RRow _ => false end) evs.

(** Every call in the [try] body completes without raising. *)
Definition steps_ok (env : browser_env) : bool :=
  negb (create_raises env) && negb (get_raises env)
  && match ready_wait env with Ready => true | _ => false end
  && negb (sleep_raises env) && negb (save_raises env).

(** A book record does not carry a [None] title. *)
Definition book_titled (item : record) : Prop :=
  is_book item = true -> dict_get "title" item <> Some VNone.

Definition genki_record : record :=
  row_of [("item_type", "book"); ("title", "Genki I"); ("length", "250")].

Definition novel_record : record :=
  row_of [("item_type", "book"); ("title", "Unknown Mystery Novel"); ("tags", "");
          ("group", ""); ("description", "")].

Definition thick_novel : record :=
  row_of [("item_type", "book"); ("title", "A Novel"); ("creators", "Anon");
          ("length", "800")].

Definition sample_items : list record :=
  [genki_record; novel_record; row_of [("item_type", "music"); ("title", "Kind of Blue")]].

(** The row [csv.DictReader] gives for the line [book,120] under the header
    [item_type,length,title]: the missing title is [None]. *)
Definition short_row_book : record :=
  [("item_type", VStr "book"); ("length", VStr "120"); ("title", VNone)].

End Measures.

Import Measures.

(** ** The adaptive categorizer ([create_adaptive_categorizer]) *)

Module Adaptive.

(** [a < b] on numbers. *)
Definition py_lt (a b : Q) : bool := negb (Qle_bool b a).

(** [utilization_data.get(shelf_id, {}).get('utilization', 0)] *)
Definition util_get (utilization_data : usage) (shelf_id : string) : Q :=
  utilization_of utilization_data shelf_id.

(** [for shelf_id, row_num in shelves: if util < bound: return ...] *)
Fixpoint first_under (utilization_data : usage) (bound : Q)
         (shelves : list (string * Z)) : option (string * Z) :=
  match shelves with
  | [] => None
  | (shelf_id, row_num) :: rest =>
      if py_lt (util_get utilization_data shelf_id) bound
      then Some (shelf_id, row_num)
      else first_under utilization_data bound rest
  end.

(** The "Last resort" loop over [SHELF_DIMENSIONS]; [min_util] is [None]
    while it still holds [float('inf')]. *)
Fixpoint least_utilized (utilization_data : usage) (ids : list string)
         (min_util : option Q) (best_option : string * Z) : string * Z :=
  match ids with
  | [] => best_option
  | shelf_id :: rest =>
      let util := util_get utilization_data shelf_id in
      let below := match min_util with None => true | Some m => py_lt util m end in
      if below then least_utilized utilization_data rest (Some util) (shelf_id, 1%Z)
      else least_utilized utilization_data rest min_util best_option
  end.

(** [find_best_shelf(preferred_shelves, fallback_shelves=None)]; an absent
    fallback is the empty list (both are falsy for [if fallback_shelves]). *)
Definition find_best_shelf (utilization_data : usage)
           (preferred fallback : list (string * Z)) : string * Z :=
  match first_under utilization_data 85 preferred with
  | Some t => t
  | None =>
      match first_under utilization_data 95 fallback with
      | Some t => t
      | None => least_utilized utilization_data (map fst SHELF_DIMENSIONS)
                                None ("office_b", 1%Z)
      end
  end.

(** [adaptive_categorize_book], closed over [utilization_data]; the
    [iteration] argument of [create_adaptive_categorizer] is unused. *)
Definition adaptive_categorize_book (utilization_data : usage)
           (title tags group description : string) : string * Z :=
  let combined := combined_text title tags group description in
  let best := find_best_shelf utilization_data in
  if any_in ["genki i"; "genki ii"; "tobira"; "clean code"; "algorithms"] combined
  then best [("office_a", 1%Z); ("office_a", 2%Z)] [("office_b", 1%Z)]
  else if any_in ["japanese"; "kanji"] combined
          && any_in ["textbook"; "dictionary"; "learning"] combined
  then best [("office_a", 1%Z); ("dining", 1%Z)] [("office_b", 3%Z)]
  else if any_in ["chinese"] combined
          && any_in ["textbook"; "integrated"; "learning"] combined
  then best [("office_a", 1%Z); ("dining", 2%Z)] [("office_b", 3%Z)]
  else if any_in ["programming"; "computer"; "software"] combined
  then best [("office_a", 2%Z); ("office_b", 2%Z)] [("crate_v", 1%Z)]
  else if any_in ["mathematics"; "math"; "algorithms"] combined
          && negb (contains "game" combined)
  then best [("office_a", 2%Z); ("office_b", 2%Z); ("crate_v", 1%Z)] []
  else if any_in ["physics"; "chemistry"; "science"] combined
          && negb (contains "cooking" combined)
  then best [("office_a", 3%Z); ("office_b", 2%Z); ("crate_v", 1%Z)] []
  else if any_in ["philosophy"; "kant"; "nietzsche"; "plato"] combined
  then best [("office_a", 4%Z); ("office_b", 1%Z)] []
  else if any_in ["history"; "historical"; "war"; "revolution"] combined
  then best [("office_b", 1%Z); ("hallway", 1%Z)] [("crate_h", 1%Z)]
  else if any_in ["literature"; "fiction"; "novel"; "poetry"; "classics"] combined
  then best [("office_b", 3%Z); ("hallway", 2%Z)] [("crate_h", 1%Z)]
  else if any_in ["language"; "dictionary"; "grammar"] combined
          && negb (contains "cooking" combined)
  then best [("dining", 3%Z); ("office_b", 3%Z)] [("crate_v", 1%Z)]
  else if any_in ["game"; "gaming"; "rpg"; "chess"; "strategy"] combined
  then best [("office_b", 4%Z)] [("crate_h", 1%Z)]
  else if any_in ["cooking"; "cook"; "food"; "recipe"; "kitchen"] combined then
    if any_in ["asian"; "japanese"; "chinese"; "sushi"] combined
    then best [("dining", 1%Z)] [("dining", 3%Z)]
    else best [("dining", 2%Z); ("dining", 3%Z)] []
  else if any_in ["uncle john"; "essay"; "anthology"; "collection"] combined
  then best [("office_b", 3%Z); ("hallway", 2%Z)] [("crate_h", 1%Z)]
  else best [("office_b", 1%Z); ("office_b", 2%Z); ("office_b", 3%Z)]
            [("crate_h", 1%Z)].

Definition create_adaptive_categorizer (utilization_data : usage)
           (iteration : Z) : categorizer :=
  fun t g gr d _ => adaptive_categorize_book utilization_data t g gr d.

End Adaptive.

Import Adaptive.

(** ** [main] of the organizer and parts of [generate_html] *)

Module Report.

(** [[item for item in items if item['item_type'] == kind]] *)
Fixpoint items_of_kind (kind : string) (items : list record)
  : result (list record) :=
  match items with
  | [] => Ok []
  | item :: rest =>
      ty <- dict_index "item_type" item ;;
      rest' <- items_of_kind kind rest ;;
      Ok (if value_is ty kind then item :: rest' else rest')
  end.

(** The organizer's [main] up to the HTML: the collected items and the
    result of [iterative_balance(books)]. *)
Definition organize (files : list csv_file)
  : list record * result (usage * Z) :=
  let '(all_items, _) := collect_items files [] [] in
  (all_items, books <- items_of_kind "book" all_items ;; iterative_balance books).

(** The three counts of the "Collection Summary". *)
Definition summary_counts (all_items : list record) : result (nat * nat * nat) :=
  b <- items_of_kind "book" all_items ;;
  v <- items_of_kind "videogame" all_items ;;
  m <- items_of_kind "music" all_items ;;
  Ok (length b, length v, length m).

(** [html.escape(s)] (with [quote=True]): the five replacements, applied
    ampersand first, act character by character. *)
Definition dquote : ascii := ascii_of_nat 34.

Definition escape_char (c : ascii) : string :=
  if Ascii.eqb c "&"%char then "&amp;"
  else if Ascii.eqb c "<"%char then "&lt;"
  else if Ascii.eqb c ">"%char then "&gt;"
  else if Ascii.eqb c dquote then "&quot;"
  else if Ascii.eqb c "'"%char then "&#x27;"
  else String c EmptyString.

Fixpoint html_escape (s : string) : string :=
  match s with
  | EmptyString => EmptyString
  | String c t => escape_char c ++ html_escape t
  end.

(** [sorted(row_books, key=lambda x: x['title'])]: Python's sort is stable,
    and the stable sort by a total order has one result, the one this
    insertion sort computes ([str] comparison is lexicographic by code
    point, [String.leb] on ASCII text). *)
Fixpoint insert_by_title (x : book_entry) (l : list book_entry) : list book_entry :=
  match l with
  | [] => [x]
  | y :: l' =>
      if String.leb (e_title x) (e_title y) then x :: l
      else y :: insert_by_title x l'
  end.

Definition sort_by_title (l : list book_entry) : list book_entry :=
  fold_right insert_by_title [] l.

Fixpoint row_get (row_num : Z) (rows : list (Z * row_usage)) : option row_usage :=
  match rows with
  | [] => None
  | (r, v) :: rest => if Z.eqb row_num r then Some v else row_get row_num rest
  end.

(** [usage.get('rows', {}).get(row_num, {}).get('items', [])] *)
Definition row_books (su : usage) (shelf_id : string) (row_num : Z)
  : list book_entry :=
  match lookup_shelf shelf_id su with
  | Some s => match row_get row_num (su_rows s) with
              | Some r => row_items r
              | None => []
              end
  | None => []
  end.

(** The rows of [ORGANIZATION]. *)
Definition ORGANIZATION : list (string * list (Z * string)) :=
  [("office_a", [(1, "Core Language Learning"); (2, "Essential Programming & Math");
                 (3, "Core Science Textbooks"); (4, "Essential Philosophy");
                 (5, "Professional Writing & Development")]);
   ("office_b", [(1, "Philosophy & Political Thought");
                 (2, "Academic Textbooks & References");
                 (3, "Essays & Collections"); (4, "Gaming & Strategy")]);
   ("dining", [(1, "Japanese Language & Asian Cooking");
               (2, "Chinese Language & Global Cooking");
               (3, "Other Languages & Kitchen References")]);
   ("hallway", [(1, "History & Historical Works");
                (2, "Literature, Fiction & Classics")]);
   ("crate_h", [(1, "General Overflow Storage")]);
   ("crate_v", [(1, "Mathematics, Science & References")])]%Z.

(** The book tables of the shelf sections: shelf, row, sorted books. *)
Definition shelf_tables (su : usage) : list (string * Z * list book_entry) :=
  flat_map (fun sh => map (fun rw => (fst sh, fst rw,
                                      sort_by_title (row_books su (fst sh) (fst rw))))
                          (snd sh))
           ORGANIZATION.

(** The entry [calculate_space_usage] appends for a book. *)
Definition entry_of (item : record) : book_entry :=
  mkEntry (text_of (get_or "title" "Unknown" item)) (get_or "creators" "Unknown" item)
          (item_pages item) (estimate_book_width (Some (item_pages item))) item.

(** The book is classified to [(shelf_id, row_num)]. *)
Definition targets_row (cat : categorizer) (shelf_id : string) (row_num : Z)
           (item : record) : bool :=
  is_book item && (String.eqb (fst (classify_item cat item)) shelf_id
                   && Z.eqb (snd (classify_item cat item)) row_num).

(** The filter of [items_of_kind]. *)
Definition kind_is (k : string) (r : record) : bool :=
  match dict_get "item_type" r with Some ty => value_is ty k | None => false end.

(** The characters [html.escape] replaces. *)
Definition special (c : ascii) : bool :=
  Ascii.eqb c "&"%char || Ascii.eqb c "<"%char || Ascii.eqb c ">"%char
  || Ascii.eqb c dquote || Ascii.eqb c "'"%char.

(** No character of [s] satisfies [p]. *)
Fixpoint no_char (p : ascii -> bool) (s : string) : bool :=
  match s with
  | EmptyString => true
  | String c t => negb (p c) && no_char p t
  end.

(** The characters that can open or close a tag or an attribute value. *)
Definition markup (c : ascii) : bool :=
  Ascii.eqb c "<"%char || Ascii.eqb c ">"%char || Ascii.eqb c dquote
  || Ascii.eqb c "'"%char.

(** The order of [sort(key=lambda x: x['title'])]. *)
Definition title_le (a b : book_entry) : Prop := String.leb (e_title a) (e_title b) = true.

End Report.

Import Report.

(** ** [main] of the screenshot helper *)

Module ScreenshotMain.




End ScreenshotMain.

Import ScreenshotMain.

(** * Properties *)

Module Sanity.

Example estimate_book_width_samples :
  map estimate_book_width [None; Some 0; Some 99; Some 100; Some 101; Some 200;
                           Some 250; Some 300; Some 301; Some 750; Some 751]%Z
  = [1; 1; 1#2; 1#2; 3#4; 3#4; 1; 1; 5#4; 3#2; 2].
Proof. reflexivity. Qed.

Example contains_samples :
  contains "genki i" (lower "Genki I   ") = true /\
  contains "war" "warranty" = true /\
  contains "novel" "unknown mystery" = false.
Proof. repeat split; reflexivity. Qed.

Example py_int_samples :
  map py_int_of_string [" 250 "; "-3"; "+1_000"; "1__0"; "_1"; "abc"; ""]
  = [Some 250; Some (-3); Some 1000; None; None; None; None]%Z.
Proof. reflexivity. Qed.

Example item_pages_samples :
  map item_pages [genki_record; novel_record; row_of [("length", "n/a")];
                  row_of [("length", "")]; [("length", VNone)]]
  = [250; 0; 0; 0; 0]%Z.
Proof. reflexivity. Qed.

End Sanity.

Module Width.

(** C1: for every optional page count the estimated width is the table of
    section 4.3: absent or [<= 0] gives 1.0, then 0.5 up to 100, 0.75 up
    to 200, 1.0 up to 300, 1.25 up to 500, 1.5 up to 750, else 2.0, each
    boundary in the lower band. *)
Theorem estimate_book_width_table :
  forall pages : option Z, estimate_book_width pages = spec_width_table pages.
Proof.
  intros [p|]; [|reflexivity].
  unfold estimate_book_width, spec_width_table.
  destruct (Z.eqb_spec p 0) as [->|_]; reflexivity.
Qed.

(** C3 (counterexample): the width is not monotonic over all page counts:
    0 pages (unknown) gives 1.0 while 50 pages gives 0.5, and an absent count
    also gives 1.0. *)
Lemma width_not_monotonic :
  (0 <= 50)%Z /\
  ~ (estimate_book_width (Some 0%Z) <= estimate_book_width (Some 50%Z)) /\
  ~ (estimate_book_width None <= estimate_book_width (Some 50%Z)).
Proof.
  split; [lia|]. split; vm_compute; intro H; apply H; reflexivity.
Qed.

(** C3 (amended): over positive page counts the width is non-decreasing. *)
Theorem width_monotonic_positive :
  forall p q : Z, (0 < p)%Z -> (p <= q)%Z ->
  estimate_book_width (Some p) <= estimate_book_width (Some q).
Proof.
  intros p q Hp Hpq. unfold estimate_book_width.
  repeat match goal with
         | |- context [(?a =? ?b)%Z] => destruct (Z.eqb_spec a b)
         | |- context [(?a <=? ?b)%Z] => destruct (Z.leb_spec a b)
         end; simpl; try lia; unfold Qle; simpl; lia.
Qed.

Lemma width_monotonic_positive_witness :
  (0 < 150)%Z /\ (150 <= 600)%Z /\
  estimate_book_width (Some 150%Z) <= estimate_book_width (Some 600%Z).
Proof.
  split; [lia|]. split; [lia|].
  apply (width_monotonic_positive 150 600); lia.
Defined.

End Width.

Module Examples.

(** C4 (counterexample): "Genki I" with 250 pages is classified to office_a
    row 1 by the main-flow classifier, but its width is 1.0, not 0.75. *)
Lemma genki_width_not_075 :
  ~ (classify_item balanced_categorizer genki_record = ("office_a", 1%Z) /\
     estimate_book_width (Some (item_pages genki_record)) = 3 # 4).
Proof. vm_compute. intros [_ H]. discriminate H. Qed.

(** C4 (amended): "Genki I" with 250 pages is classified by the main-flow
    classifier to office_a row 1 and its estimated width is 1.0 inch; the
    record lands in that row of the space usage with width 1.0. *)
Theorem genki_office_a_row1 :
  classify_item balanced_categorizer genki_record = ("office_a", 1%Z) /\
  estimate_book_width (Some (item_pages genki_record)) = 1 /\
  match calculate_space_usage balanced_categorizer [genki_record] with
  | Ok su =>
      match lookup_shelf "office_a" su with
      | Some s => map (fun p => (fst p, row_width (snd p))) (su_rows s)
                  = [(1%Z, 0 + 1); (2%Z, 0); (3%Z, 0); (4%Z, 0); (5%Z, 0)]
      | None => False
      end
  | Err _ => False
  end.
Proof. vm_compute. repeat split. Qed.

(** C5 (counterexample): the main-flow classifier sends "Unknown Mystery
    Novel" to hallway row 1, not row 2. *)
Lemma mystery_novel_not_hallway2 :
  classify_item balanced_categorizer novel_record <> ("hallway", 2%Z).
Proof. vm_compute. discriminate. Qed.

(** C5 (amended): "Unknown Mystery Novel" (empty tags, group, description)
    goes to hallway row 1 under the main-flow classifier
    [balanced_categorize_book] (rule [fiction/novel/poetry]), and to hallway
    row 2 under [categorize_book], the default of [calculate_space_usage]. *)
Theorem mystery_novel_hallway :
  classify_item balanced_categorizer novel_record = ("hallway", 1%Z) /\
  classify_item default_categorizer novel_record = ("hallway", 2%Z).
Proof. split; reflexivity. Qed.

End Examples.

Module Banner.

Lemma Qle_bool_false (a b : Q) : b < a -> Qle_bool a b = false.
Proof.
  intros H. destruct (Qle_bool a b) eqn:E; [|reflexivity].
  apply Qle_bool_iff in E. exfalso. exact (Qlt_not_le _ _ H E).
Qed.

Lemma Qle_bool_true (a b : Q) : a <= b -> Qle_bool a b = true.
Proof. intros H. apply Qle_bool_iff. exact H. Qed.

(** C6: the banner band of a utilization [u] is "over capacity" iff
    [u > 90], "near capacity" iff [75 < u <= 90], "good capacity" iff
    [u <= 75]; and twenty 800-page novels put 40" on the 32" hallway shelf:
    utilization 125 %, "over capacity" banner. *)
Theorem status_class_bands :
  (forall u : Q,
     (status_class u = OverCapacity <-> 90 < u) /\
     (status_class u = NearCapacity <-> 75 < u /\ u <= 90) /\
     (status_class u = GoodCapacity <-> u <= 75)) /\
  match calculate_space_usage balanced_categorizer (repeat thick_novel 20) with
  | Ok su =>
      match lookup_shelf "hallway" su with
      | Some s =>
          su_available_width s = 32%Z /\ su_total_width s == 40 /\
          su_utilization s == 125 /\
          In ("hallway", su_utilization s, OverCapacity) (utilization_banners su)
      | None => False
      end
  | Err _ => False
  end.
Proof.
  split.
  - intros u. unfold status_class.
    destruct (Qlt_le_dec 90 u) as [H90|H90].
    + rewrite (Qle_bool_false u 90 H90). simpl.
      repeat split; intros; try reflexivity; try discriminate; try lra.
    + rewrite (Qle_bool_true u 90 H90). simpl.
      destruct (Qlt_le_dec 75 u) as [H75|H75].
      * rewrite (Qle_bool_false u 75 H75). simpl.
        repeat split; intros; try reflexivity; try discriminate; try lra;
          tauto.
      * rewrite (Qle_bool_true u 75 H75). simpl.
        repeat split; intros; try reflexivity; try discriminate; try lra.
  - vm_compute. repeat split; tauto.
Qed.

End Banner.

Module Ingest.

Local Open Scope list_scope.

Definition book_row : record := row_of [("item_type", "book"); ("title", "Dune")].

(** A file whose reader yields one row, then raises (a malformed tail). *)
Definition truncated_file : csv_file := mkFile "library_books.csv" [RRow book_row; RError].

(** C7 (counterexample): a file whose reading raises after a recognized row
    still contributes that row: [parse_csv_file] returns the items read so
    far, not zero records. *)
Lemma parse_error_keeps_rows :
  raises_error (events truncated_file) = true /\
  fst (parse_csv_file truncated_file) = [book_row] /\
  snd (parse_csv_file truncated_file) = [LogReadError "library_books.csv"].
Proof. repeat split. Qed.

Lemma read_rows_spec (evs : list read_event) (acc : list record) :
  read_rows evs acc =
  (acc ++ filter recognized (rows_before_error evs), raises_error evs).
Proof.
  revert acc. induction evs as [|[r|] evs IH]; intros acc; simpl.
  - now rewrite app_nil_r.
  - rewrite IH. destruct (recognized r); simpl.
    + now rewrite <- app_assoc.
    + reflexivity.
  - now rewrite app_nil_r.
Qed.

Lemma collect_items_spec (files : list csv_file) (acc : list record)
      (log : list log_line) :
  collect_items files acc log =
  (acc ++ flat_map (fun f => fst (parse_csv_file f)) files,
   log ++ flat_map (fun f => snd (parse_csv_file f)) files).
Proof.
  revert acc log. induction files as [|f fs IH]; intros acc log; simpl.
  - now rewrite !app_nil_r.
  - destruct (parse_csv_file f) as [items l] eqn:E. simpl.
    rewrite IH. now rewrite <- !app_assoc.
Qed.

Lemma filter_nil_iff {A} (p : A -> bool) (l : list A) :
  filter p l = [] <-> (forall x, In x l -> p x = false).
Proof.
  induction l as [|a l IH]; simpl; [split; [intros _ x []|reflexivity]|].
  destruct (p a) eqn:E; split.
  - discriminate.
  - intros H. rewrite (H a (or_introl eq_refl)) in E. discriminate.
  - intros H x [<-|Hx]; [exact E|]. exact (proj1 IH H x Hx).
  - intros H. apply IH. intros x Hx. exact (H x (or_intror Hx)).
Qed.

(** C7 (amended): [parse_csv_file] returns the recognized rows read before
    the first exception raised while opening or reading the file, in order,
    and logs one error line exactly when such an exception was raised; it
    returns zero records exactly when no recognized row precedes that
    exception; in [main] the records of every file, failing or not, are
    concatenated in file order. *)
Theorem parse_csv_file_partial :
  (forall f : csv_file,
     parse_csv_file f =
     (filter recognized (rows_before_error (events f)),
      if raises_error (events f) then [LogReadError (path f)] else [])) /\
  (forall f : csv_file,
     fst (parse_csv_file f) = [] <->
     (forall r, In r (rows_before_error (events f)) -> recognized r = false)) /\
  (forall files : list csv_file,
     fst (collect_items files [] []) =
     flat_map (fun f => fst (parse_csv_file f)) files).
Proof.
  split; [|split].
  - intros f. unfold parse_csv_file. rewrite read_rows_spec. reflexivity.
  - intros f. unfold parse_csv_file. rewrite read_rows_spec. simpl.
    apply filter_nil_iff.
  - intros files. rewrite collect_items_spec. reflexivity.
Qed.

End Ingest.

Module Capture.

Definition quit_fails : browser_env :=
  mkEnv false false Ready false false true true.

Definition all_steps_pass : browser_env :=
  mkEnv false false Ready false false true false.

(** C8 (counterexample): when every step succeeds but [driver.quit()] raises
    in the [finally] clause, the exception propagates out of
    [capture_screenshot]. *)
Lemma quit_exception_propagates :
  steps_ok quit_fails = true /\ capture_screenshot quit_fails = Raised.
Proof. split; reflexivity. Qed.

(** C8 (amended): when [save_screenshot] does not return False,
    [capture_screenshot] returns True exactly when driver creation,
    navigation, the readiness wait, the render wait and the
    [save_screenshot] call complete without raising and [driver.quit()] does
    not raise; the only exception that propagates is one raised by
    [driver.quit()] in the [finally] clause, after the driver was created.
    The exit code is 0 exactly when True is returned and 1 otherwise, in
    particular on a readiness timeout. *)
Theorem capture_screenshot_outcomes :
  forall env : browser_env,
  (save_returns env = true ->
   (capture_screenshot env = Returned true <->
      steps_ok env = true /\ quit_raises env = false)) /\
  (capture_screenshot env = Raised <->
     create_raises env = false /\ quit_raises env = true) /\
  (exit_code env = 0%Z <-> capture_screenshot env = Returned true) /\
  (exit_code env = 0%Z \/ exit_code env = 1%Z) /\
  (ready_wait env = WaitTimeout -> exit_code env = 1%Z).
Proof.
  intros [c g r sl sa sr q].
  unfold exit_code, capture_screenshot, try_body, steps_ok; simpl.
  destruct c, g, r, sl, sa, sr, q; simpl; intuition congruence.
Qed.

Lemma capture_screenshot_outcomes_witness :
  save_returns all_steps_pass = true /\
  capture_screenshot all_steps_pass = Returned true.
Proof.
  split; [reflexivity|].
  apply (proj2 (proj1 (capture_screenshot_outcomes all_steps_pass) eq_refl)).
  split; reflexivity.
Defined.

End Capture.

Module Usage.

(** *** Generic facts on [assoc_update] *)

Lemma assoc_update_keys {K V} (eqk : K -> K -> bool) k (f : V -> result V) l l' :
  assoc_update eqk k f l = Ok l' -> map fst l' = map fst l.
Proof.
  revert l'. induction l as [|[k' v] l IH]; intros l' H; simpl in H; [discriminate|].
  destruct (eqk k k').
  - destruct (f v); inversion H; reflexivity.
  - destruct (assoc_update eqk k f l) eqn:E; inversion H; subst.
    simpl. f_equal. apply IH. reflexivity.
Qed.

Lemma assoc_update_map {K V W} (eqk : K -> K -> bool) k (f : V -> result V)
      (g : V -> W) l l' :
  (forall v v', f v = Ok v' -> g v' = g v) ->
  assoc_update eqk k f l = Ok l' ->
  map (fun p => (fst p, g (snd p))) l' = map (fun p => (fst p, g (snd p))) l.
Proof.
  intros Hf. revert l'.
  induction l as [|[k' v] l IH]; intros l' H; simpl in H; [discriminate|].
  destruct (eqk k k').
  - destruct (f v) eqn:Ev; inversion H; subst. simpl. now rewrite (Hf _ _ Ev).
  - destruct (assoc_update eqk k f l) eqn:E; inversion H; subst.
    simpl. f_equal. apply IH. reflexivity.
Qed.

Lemma assoc_update_sum {K V} (eqk : K -> K -> bool) k (f : V -> result V)
      (m : V -> Q) (w : Q) l l' :
  (forall v v', f v = Ok v' -> m v' == m v + w) ->
  assoc_update eqk k f l = Ok l' -> sum_by m l' == sum_by m l + w.
Proof.
  intros Hf. revert l'.
  induction l as [|[k' v] l IH]; intros l' H; simpl in H; [discriminate|].
  destruct (eqk k k').
  - destruct (f v) eqn:Ev; inversion H; subst. unfold sum_by; simpl.
    fold (sum_by m l). rewrite (Hf _ _ Ev). ring.
  - destruct (assoc_update eqk k f l) as [l''|] eqn:E; inversion H; subst.
    unfold sum_by; simpl. fold (sum_by m l). fold (sum_by m l'').
    rewrite (IH l'' eq_refl). ring.
Qed.


Lemma assoc_update_ok {K V} (eqk : K -> K -> bool) k (f : V -> result V) l :
  (forall a b, eqk a b = true <-> a = b) ->
  In k (map fst l) ->
  (forall v, In (k, v) l -> exists v', f v = Ok v') ->
  exists l', assoc_update eqk k f l = Ok l'.
Proof.
  intros Heq. induction l as [|[k' v] l IH]; intros Hin Hf; simpl in *; [tauto|].
  destruct (eqk k k') eqn:E.
  - apply Heq in E. subst k'. destruct (Hf v (or_introl eq_refl)) as [v' ->].
    eexists; reflexivity.
  - destruct Hin as [Hk|Hin].
    + subst k'. exfalso. assert (eqk k k = true) by (apply Heq; reflexivity). congruence.
    + destruct IH as [l' ->]; [assumption| intros v0 Hv0; apply Hf; auto |].
      eexists; reflexivity.
Qed.

Lemma map_fst_pairs {K V W} (g : V -> W) (l : list (K * V)) :
  map fst (map (fun p => (fst p, g (snd p))) l) = map fst l.
Proof. rewrite map_map. reflexivity. Qed.

Lemma in_map_pair {K V W} (g : V -> W) (l : list (K * V)) k v :
  In (k, v) l -> In (k, g v) (map (fun p => (fst p, g (snd p))) l).
Proof. intros H. apply (in_map (fun p => (fst p, g (snd p))) _ _ H). Qed.

Lemma nodup_in_unique {K V} (l : list (K * V)) k a b :
  NoDup (map fst l) -> In (k, a) l -> In (k, b) l -> a = b.
Proof.
  induction l as [|[k' v] l IH]; simpl; [tauto|].
  intros Hnd Ha Hb. inversion Hnd as [|? ? Hnin Hnd']; subst.
  destruct Ha as [Ha|Ha], Hb as [Hb|Hb].
  - congruence.
  - inversion Ha; subst. exfalso. apply Hnin. apply (in_map fst _ _ Hb).
  - inversion Hb; subst. exfalso. apply Hnin. apply (in_map fst _ _ Ha).
  - auto.
Qed.

(** *** The configuration *)

Lemma configured_shape_value :
  configured_shape =
  [("office_a", ([1; 2; 3; 4; 5], 160)); ("office_b", ([1; 2; 3; 4], 128));
   ("dining", ([1; 2; 3], 72)); ("hallway", ([1; 2], 32));
   ("crate_h", ([1], 32)); ("crate_v", ([1], 12))]%Z.
Proof. reflexivity. Qed.

Lemma configured_shape_nodup : NoDup (map fst configured_shape).
Proof.
  rewrite configured_shape_value. simpl.
  repeat constructor; simpl; intuition discriminate.
Qed.

Lemma configured_available_pos :
  Forall (fun x => (0 < snd (snd x))%Z) configured_shape.
Proof. rewrite configured_shape_value. repeat constructor; simpl; lia. Qed.

Lemma init_usage_shape : shape init_usage = configured_shape.
Proof. reflexivity. Qed.

Lemma init_usage_total : usage_rows_total init_usage == 0.
Proof. reflexivity. Qed.

(** *** One book *)

Lemma add_book_sum cat su item su' :
  add_book cat su item = Ok su' ->
  usage_rows_total su' == usage_rows_total su + estimate_book_width (Some (item_pages item)).
Proof.
  unfold add_book. destruct (get_or "title" "" item) as [t0|]; [|discriminate].
  destruct (classify_item cat item) as [sid rn]. cbv zeta.
  apply assoc_update_sum. intros s s' H.
  destruct (assoc_update Z.eqb rn _ (su_rows s)) as [rows'|] eqn:E;
    simpl in H; inversion H; subst; simpl.
  revert E. apply assoc_update_sum. intros r r' Hr.
  inversion Hr; subst; simpl. reflexivity.
Qed.

Lemma add_book_shape cat su item su' :
  add_book cat su item = Ok su' -> shape su' = shape su.
Proof.
  unfold add_book, shape. destruct (get_or "title" "" item) as [t0|]; [|discriminate].
  destruct (classify_item cat item) as [sid rn]. cbv zeta.
  apply (assoc_update_map _ _ _
           (fun s => (map fst (su_rows s), su_available_width s))).
  intros s s' H.
  destruct (assoc_update Z.eqb rn _ (su_rows s)) as [rows'|] eqn:E;
    simpl in H; inversion H; subst; simpl.
  now rewrite (assoc_update_keys _ _ _ _ _ E).
Qed.


Lemma in_targets_spec sid rn :
  in_targets (sid, rn) = true ->
  exists keys a, In (sid, (keys, a)) configured_shape /\ In rn keys.
Proof.
  unfold in_targets. intros H. apply existsb_exists in H.
  destruct H as [[sid' [keys a]] [Hin H]]. simpl in H.
  apply andb_true_iff in H. destruct H as [H1 H2].
  apply String.eqb_eq in H1. subst sid'.
  apply existsb_exists in H2. destruct H2 as [rn' [Hrn H2]].
  apply Z.eqb_eq in H2. subst rn'. eauto.
Qed.

Lemma add_book_ok cat su item :
  shape su = configured_shape ->
  get_or "title" "" item <> VNone ->
  in_targets (classify_item cat item) = true ->
  exists su', add_book cat su item = Ok su'.
Proof.
  intros Hsh Hti. unfold add_book.
  destruct (get_or "title" "" item) as [t0|]; [|contradiction].
  destruct (classify_item cat item) as [sid rn].
  intros Ht. cbv zeta.
  destruct (in_targets_spec _ _ Ht) as [keys [a [Hcfg Hrn]]].
  apply assoc_update_ok.
  - intros x y. apply String.eqb_eq.
  - rewrite <- (map_fst_pairs (fun s => (map fst (su_rows s), su_available_width s))).
    fold (shape su). rewrite Hsh. apply (in_map fst _ _ Hcfg).
  - intros s Hs.
    assert (Hs' : In (sid, (map fst (su_rows s), su_available_width s))
                     configured_shape).
    { rewrite <- Hsh. unfold shape.
      exact (in_map_pair (fun s => (map fst (su_rows s), su_available_width s))
               _ _ _ Hs). }
    pose proof (nodup_in_unique _ _ _ _ configured_shape_nodup Hcfg Hs') as Heq.
    inversion Heq as [[Hk Ha]].
    destruct (assoc_update_ok Z.eqb rn
                (fun r => Ok (mkRow (row_width r + estimate_book_width (Some (item_pages item)))
                                    (row_items r ++ [mkEntry (text_of (get_or "title" "Unknown" item))
                                                      (get_or "creators" "Unknown" item)
                                                      (item_pages item)
                                                      (estimate_book_width (Some (item_pages item)))
                                                      item])%list))
                (su_rows s)) as [rows' Hr].
    + apply Z.eqb_eq.
    + rewrite <- Hk. exact Hrn.
    + intros v _. eexists; reflexivity.
    + rewrite Hr. simpl. eexists; reflexivity.
Qed.

(** *** The item loop *)

Lemma books_width_total_cons item rest :
  books_width_total (item :: rest) =
  (if is_book item
   then estimate_book_width (Some (item_pages item)) + books_width_total rest
   else books_width_total rest).
Proof. unfold books_width_total. simpl. destruct (is_book item); reflexivity. Qed.

Lemma process_items_sum cat items : forall su su',
  process_items cat su items = Ok su' ->
  usage_rows_total su' == usage_rows_total su + books_width_total items.
Proof.
  induction items as [|item rest IH]; intros su su' H.
  - simpl in H. inversion H; subst. unfold books_width_total; simpl. ring.
  - rewrite books_width_total_cons. simpl in H. unfold dict_index in H.
    unfold is_book. destruct (dict_get "item_type" item) as [ty|];
      simpl in H; [|discriminate].
    destruct (value_is ty "book").
    + destruct (add_book cat su item) as [su1|] eqn:Ea; simpl in H; [|discriminate].
      rewrite (IH _ _ H). rewrite (add_book_sum _ _ _ _ Ea). ring.
    + exact (IH _ _ H).
Qed.

Lemma process_items_shape cat items : forall su su',
  process_items cat su items = Ok su' -> shape su' = shape su.
Proof.
  induction items as [|item rest IH]; intros su su' H; simpl in H.
  - congruence.
  - unfold dict_index in H. destruct (dict_get "item_type" item) as [ty|];
      simpl in H; [|discriminate].
    destruct (value_is ty "book").
    + destruct (add_book cat su item) as [su1|] eqn:Ea; simpl in H; [|discriminate].
      rewrite (IH _ _ H). exact (add_book_shape _ _ _ _ Ea).
    + exact (IH _ _ H).
Qed.


Lemma titled_get_or item :
  dict_get "title" item <> Some VNone -> get_or "title" "" item <> VNone.
Proof. unfold get_or. destruct (dict_get "title" item) as [[]|]; congruence. Qed.

Lemma process_items_ok cat items : forall su,
  (forall item, in_targets (classify_item cat item) = true) ->
  Forall has_item_type items ->
  Forall book_titled items ->
  shape su = configured_shape ->
  exists su', process_items cat su items = Ok su'.
Proof.
  induction items as [|item rest IH]; intros su Hcat Hty Hti Hsh; simpl.
  - eexists; reflexivity.
  - inversion Hty as [|? ? Hit Hrest]; subst.
    inversion Hti as [|? ? Htt Htrest]; subst. unfold dict_index.
    unfold has_item_type in Hit. unfold book_titled, is_book in Htt.
    destruct (dict_get "item_type" item) as [ty|]; [|contradiction]. simpl.
    destruct (value_is ty "book").
    + destruct (add_book_ok cat su item Hsh (titled_get_or _ (Htt eq_refl)) (Hcat item))
        as [su1 Ea].
      rewrite Ea. simpl. apply IH; auto.
      rewrite (add_book_shape _ _ _ _ Ea). exact Hsh.
    + apply IH; auto.
Qed.

(** *** The totals loop *)

Lemma finish_all_rows su : forall su',
  finish_all su = Ok su' -> usage_rows_total su' = usage_rows_total su.
Proof.
  induction su as [|[id s] rest IH]; intros su' H; simpl in H.
  - inversion H; reflexivity.
  - unfold finish_shelf, py_div in H.
    destruct (Qeq_bool _ 0); simpl in H; [discriminate|].
    destruct (finish_all rest) as [rest'|] eqn:E; simpl in H; inversion H; subst.
    unfold usage_rows_total, sum_by in *. simpl. f_equal. apply IH. reflexivity.
Qed.

Lemma finish_all_err su e : finish_all su = Err e -> e = ZeroDivisionError.
Proof.
  induction su as [|[id s] rest IH]; intros H; simpl in H; [discriminate|].
  unfold finish_shelf, py_div in H.
  destruct (Qeq_bool _ 0); simpl in H; [congruence|].
  destruct (finish_all rest); simpl in H; inversion H; subst; auto.
Qed.

Lemma inject_Z_nonzero (a : Z) : a <> 0%Z -> Qeq_bool (inject_Z a) 0 = false.
Proof.
  intros Ha. destruct (Qeq_bool (inject_Z a) 0) eqn:E; [|reflexivity].
  apply Qeq_bool_iff in E. unfold Qeq in E. simpl in E. lia.
Qed.

Lemma finish_all_ok su :
  (forall p, In p su -> su_available_width (snd p) <> 0%Z) ->
  exists su', finish_all su = Ok su' /\ shape su' = shape su.
Proof.
  induction su as [|[id s] rest IH]; intros Hnz; simpl.
  - exists []. split; reflexivity.
  - unfold finish_shelf, py_div.
    pose proof (inject_Z_nonzero _ (Hnz (id, s) (or_introl eq_refl))) as Hq.
    simpl in Hq. rewrite Hq. simpl.
    assert (Hr : forall p, In p rest -> su_available_width (snd p) <> 0%Z)
      by (intros p Hp; apply Hnz; right; exact Hp).
    destruct (IH Hr) as [rest' [Hrest Hsh]]. rewrite Hrest.
    simpl. eexists; split; [reflexivity|].
    unfold shape in *. simpl. f_equal. exact Hsh.
Qed.

Lemma configured_available_nonzero su :
  shape su = configured_shape ->
  forall p, In p su -> su_available_width (snd p) <> 0%Z.
Proof.
  intros Hsh [id s] Hin. simpl.
  assert (Hc : In (id, (map fst (su_rows s), su_available_width s)) configured_shape).
  { rewrite <- Hsh. unfold shape.
    exact (in_map_pair (fun s => (map fst (su_rows s), su_available_width s))
             _ _ _ Hin). }
  pose proof configured_available_pos as Hpos. rewrite Forall_forall in Hpos.
  specialize (Hpos _ Hc). simpl in Hpos. lia.
Qed.

(** *** The two categorizers only name initialised rows *)

Ltac split_ifs :=
  repeat match goal with |- context [if ?b then _ else _] => destruct b end.


Lemma balanced_categorizer_targets item :
  in_targets (classify_item balanced_categorizer item) = true.
Proof.
  cbv beta zeta delta [classify_item balanced_categorizer balanced_categorize_book].
  split_ifs; reflexivity.
Qed.

Lemma process_items_filter cat items : forall su,
  process_items cat su items =
  process_items cat su (filter (fun r => negb (is_non_book r)) items).
Proof.
  induction items as [|item rest IH]; intros su; [reflexivity|].
  simpl. unfold is_non_book, dict_index.
  destruct (dict_get "item_type" item) as [ty|] eqn:E; simpl.
  - destruct (value_is ty "book") eqn:Eb; simpl.
    + unfold dict_index. rewrite E. simpl. rewrite Eb.
      destruct (add_book cat su item); simpl; auto.
    + apply IH.
  - unfold dict_index. rewrite E. reflexivity.
Qed.

(** *** Claims on [calculate_space_usage] *)

(** C2: whenever [calculate_space_usage] returns, the sum over all shelves
    and rows of the accumulated row widths equals the sum of the estimated
    widths of the book records: every book is counted in exactly one row. *)
Theorem calculate_space_usage_conserves_width (cat : categorizer)
        (items : list record) (su : usage) :
  calculate_space_usage cat items = Ok su ->
  usage_rows_total su == books_width_total items.
Proof.
  unfold calculate_space_usage. intros H.
  destruct (process_items cat init_usage items) as [su0|] eqn:E; simpl in H;
    [|discriminate].
  rewrite (finish_all_rows _ _ H).
  rewrite (process_items_sum _ _ _ _ E). rewrite init_usage_total. ring.
Qed.

Lemma calculate_space_usage_conserves_width_witness :
  calculate_space_usage balanced_categorizer sample_items =
    Ok (match calculate_space_usage balanced_categorizer sample_items with
        | Ok su => su | Err _ => [] end) /\
  usage_rows_total (match calculate_space_usage balanced_categorizer sample_items with
                    | Ok su => su | Err _ => [] end)
  == books_width_total sample_items.
Proof.
  split; [vm_compute; reflexivity|].
  apply (calculate_space_usage_conserves_width balanced_categorizer sample_items).
  vm_compute. reflexivity.
Defined.

(** C9 (failing input): a book row that [csv.DictReader] read from a line
    shorter than the header has the title [None]; both the default and the
    main-flow categorizer raise [AttributeError] at [title.lower()], so
    [calculate_space_usage] returns no shelves, and the organizer's [main]
    fails on the file holding that line. *)
Theorem short_row_book_raises :
  has_item_type short_row_book /\
  calculate_space_usage default_categorizer [short_row_book] = Err AttributeError /\
  calculate_space_usage balanced_categorizer [short_row_book] = Err AttributeError /\
  fst (organize [mkFile "library_books.csv" [RRow short_row_book]]) = [short_row_book] /\
  snd (organize [mkFile "library_books.csv" [RRow short_row_book]]) = Err AttributeError.
Proof.
  split; [unfold has_item_type; simpl; discriminate|].
  repeat split; reflexivity.
Qed.



(** C10: records whose kind is present and not ["book"] (videogame, music)
    change nothing: [calculate_space_usage] gives the same result, widths,
    item lists, totals and utilizations included, once they are removed. *)
Theorem calculate_space_usage_ignores_non_books (cat : categorizer)
        (items : list record) :
  calculate_space_usage cat items =
  calculate_space_usage cat (filter (fun r => negb (is_non_book r)) items).
Proof.
  unfold calculate_space_usage. rewrite <- process_items_filter. reflexivity.
Qed.

End Usage.

(** * Further properties of the code *)

Module WidthBounds.

Lemma width_between (p : option Z) :
  1 # 2 <= estimate_book_width p /\ estimate_book_width p <= 2.
Proof.
  destruct p as [p|]; unfold estimate_book_width;
    [repeat match goal with |- context [if ?b then _ else _] => destruct b end|];
    split; unfold Qle; simpl; lia.
Qed.

(** Every estimated width lies between 0.5 and 2.0 inches. *)
Theorem estimate_book_width_range (p : option Z) :
  1 # 2 <= estimate_book_width p /\ estimate_book_width p <= 2.
Proof. exact (width_between p). Qed.

End WidthBounds.

Module CaseInsensitive.

Lemma lower_char_idem (c : ascii) : lower_char (lower_char c) = lower_char c.
Proof. destruct c as [[] [] [] [] [] [] [] []]; reflexivity. Qed.

Lemma lower_idem (s : string) : lower (lower s) = lower s.
Proof. induction s as [|c s IH]; simpl; [reflexivity|]. now rewrite lower_char_idem, IH. Qed.

Lemma lower_or_empty_lower (s : string) : lower_or_empty (lower s) = lower_or_empty s.
Proof.
  destruct s as [|c s]; [reflexivity|]. unfold lower_or_empty. simpl.
  now rewrite lower_char_idem, lower_idem.
Qed.

Lemma combined_text_lower t g gr d :
  combined_text (lower t) (lower g) (lower gr) (lower d) = combined_text t g gr d.
Proof. unfold combined_text. now rewrite lower_idem, !lower_or_empty_lower. Qed.

(** Both categorizers ignore letter case: lower-casing title, tags, group
    and description changes no classification. *)
Theorem categorizers_case_insensitive (t g gr d : string) :
  categorize_book (lower t) (lower g) (lower gr) (lower d) = categorize_book t g gr d /\
  balanced_categorize_book (lower t) (lower g) (lower gr) (lower d)
  = balanced_categorize_book t g gr d.
Proof.
  unfold categorize_book, balanced_categorize_book.
  rewrite combined_text_lower. split; reflexivity.
Qed.

End CaseInsensitive.

Module Guards.

Ltac split_ifs_eqn :=
  repeat match goal with |- context [if ?b then _ else _] => destruct b eqn:? end.

(** Under the main-flow categorizer a text containing "cooking" never lands
    on dining rows 2 or 3 (the language rules exclude it), and a text
    containing "japanese" never lands on crate_v. *)
Theorem balanced_guards :
  (forall t g gr d,
     contains "cooking" (combined_text t g gr d) = true ->
     balanced_categorize_book t g gr d <> ("dining", 2%Z) /\
     balanced_categorize_book t g gr d <> ("dining", 3%Z)) /\
  (forall t g gr d,
     contains "japanese" (combined_text t g gr d) = true ->
     balanced_categorize_book t g gr d <> ("crate_v", 1%Z)).
Proof.
  split; intros t g gr d H; unfold balanced_categorize_book; cbv zeta;
    rewrite H; simpl negb; rewrite ?andb_false_r; split_ifs_eqn;
    try split; discriminate.
Qed.

End Guards.

Module Escape.

Lemma no_char_app p s1 s2 : no_char p (s1 ++ s2) = no_char p s1 && no_char p s2.
Proof. induction s1; simpl; [reflexivity|]. rewrite IHs1. apply andb_assoc. Qed.

Lemma escape_char_no_markup c : no_char markup (escape_char c) = true.
Proof.
  unfold escape_char.
  destruct (Ascii.eqb c "&"%char); [reflexivity|].
  destruct (Ascii.eqb c "<"%char) eqn:Elt; [reflexivity|].
  destruct (Ascii.eqb c ">"%char) eqn:Egt; [reflexivity|].
  destruct (Ascii.eqb c dquote) eqn:Eq; [reflexivity|].
  destruct (Ascii.eqb c "'"%char) eqn:Eap; [reflexivity|].
  simpl. unfold markup. now rewrite Elt, Egt, Eq, Eap.
Qed.

Lemma escape_char_plain c : special c = false -> escape_char c = String c EmptyString.
Proof.
  unfold special, escape_char. intros H.
  repeat rewrite orb_false_iff in H.
  destruct H as [[[[-> ->] ->] ->] ->]. reflexivity.
Qed.

(** [html.escape] leaves no [<], [>], double or single quote in its output,
    and it returns a string unchanged when it holds none of the five
    characters it replaces. *)
Theorem html_escape_safe (s : string) :
  no_char markup (html_escape s) = true /\
  (no_char special s = true -> html_escape s = s).
Proof.
  split.
  - induction s as [|c s IH]; [reflexivity|]. simpl.
    rewrite no_char_app, escape_char_no_markup. exact IH.
  - induction s as [|c s IH]; [reflexivity|]. simpl.
    intros H. apply andb_true_iff in H. destruct H as [Hc Hs].
    apply negb_true_iff in Hc. rewrite (escape_char_plain c Hc).
    simpl. now rewrite IH.
Qed.

End Escape.

Module TitleSort.

Lemma leb_refl (s : string) : String.leb s s = true.
Proof. destruct (String.leb_total s s); assumption. Qed.

Lemma leb_false_flip (a b : string) : String.leb a b = false -> String.leb b a = true.
Proof. intros H. destruct (String.leb_total a b) as [H'|H']; congruence. Qed.

Lemma insert_perm x l : Permutation (x :: l) (insert_by_title x l).
Proof.
  induction l as [|y l IH]; simpl; [reflexivity|].
  destruct (String.leb (e_title x) (e_title y)); [reflexivity|].
  etransitivity; [apply perm_swap|]. apply perm_skip. exact IH.
Qed.

Lemma insert_hdrel y x l :
  HdRel title_le y l -> title_le y x -> HdRel title_le y (insert_by_title x l).
Proof.
  intros Hh Hyx. destruct l as [|z l]; simpl.
  - constructor. exact Hyx.
  - destruct (String.leb (e_title x) (e_title z)); constructor; [exact Hyx|].
    inversion Hh; assumption.
Qed.

Lemma insert_sorted x l : Sorted title_le l -> Sorted title_le (insert_by_title x l).
Proof.
  induction 1 as [|y l Hs IH Hh]; simpl.
  - repeat constructor.
  - destruct (String.leb (e_title x) (e_title y)) eqn:E.
    + constructor; [constructor; assumption| constructor; exact E].
    + constructor; [exact IH|]. apply insert_hdrel; [exact Hh|].
      apply leb_false_flip. exact E.
Qed.

Lemma insert_filter t x l :
  filter (fun e => String.eqb (e_title e) t) (insert_by_title x l) =
  if String.eqb (e_title x) t then x :: filter (fun e => String.eqb (e_title e) t) l
  else filter (fun e => String.eqb (e_title e) t) l.
Proof.
  induction l as [|y l IH]; simpl.
  - destruct (String.eqb (e_title x) t); reflexivity.
  - destruct (String.leb (e_title x) (e_title y)) eqn:E.
    + simpl. destruct (String.eqb (e_title x) t); reflexivity.
    + simpl. rewrite IH.
      destruct (String.eqb (e_title x) t) eqn:Ex; [|reflexivity].
      destruct (String.eqb (e_title y) t) eqn:Ey; [|reflexivity].
      apply String.eqb_eq in Ex, Ey. rewrite Ex, Ey, leb_refl in E. discriminate.
Qed.

(** The book tables of the report list each row sorted by title: the sort
    is ordered, a permutation of the row's books, and stable (books with
    the same title keep their input order). *)
Theorem sort_by_title_spec (l : list book_entry) :
  Sorted title_le (sort_by_title l) /\
  Permutation l (sort_by_title l) /\
  (forall t, filter (fun e => String.eqb (e_title e) t) (sort_by_title l) =
             filter (fun e => String.eqb (e_title e) t) l).
Proof.
  unfold sort_by_title. induction l as [|x l [IHs [IHp IHf]]]; simpl.
  - repeat split; constructor.
  - split; [apply insert_sorted; exact IHs|]. split.
    + etransitivity; [apply perm_skip; exact IHp| apply insert_perm].
    + intros t. rewrite insert_filter, IHf. reflexivity.
Qed.

End TitleSort.

Module ScreenshotCli.


End ScreenshotCli.

Module RowContents.
Local Open Scope list_scope.

Lemma lookup_update_same k f su su' :
  assoc_update String.eqb k f su = Ok su' ->
  exists v v', lookup_shelf k su = Some v /\ f v = Ok v' /\ lookup_shelf k su' = Some v'.
Proof.
  revert su'. induction su as [|[k0 v] rest IH]; intros su' H; simpl in H; [discriminate|].
  simpl. destruct (String.eqb k k0) eqn:E.
  - destruct (f v) as [v'|] eqn:Ef; inversion H; subst.
    exists v, v'. simpl. rewrite E. auto.
  - destruct (assoc_update String.eqb k f rest) as [rest'|] eqn:Er; inversion H; subst.
    simpl. rewrite E. apply IH. reflexivity.
Qed.

Lemma lookup_update_other k k' f su su' :
  assoc_update String.eqb k f su = Ok su' -> k' <> k ->
  lookup_shelf k' su' = lookup_shelf k' su.
Proof.
  intros H Hne. revert su' H.
  induction su as [|[k0 v] rest IH]; intros su' H; simpl in H; [discriminate|].
  destruct (String.eqb k k0) eqn:E.
  - apply String.eqb_eq in E. subst k0.
    destruct (f v); inversion H; subst. simpl.
    destruct (String.eqb_spec k' k); [contradiction|reflexivity].
  - destruct (assoc_update String.eqb k f rest) as [rest'|] eqn:Er; inversion H; subst.
    simpl. destruct (String.eqb k' k0); [reflexivity|]. apply IH. reflexivity.
Qed.

Lemma row_get_update_same k f rows rows' :
  assoc_update Z.eqb k f rows = Ok rows' ->
  exists v v', row_get k rows = Some v /\ f v = Ok v' /\ row_get k rows' = Some v'.
Proof.
  revert rows'. induction rows as [|[k0 v] rest IH]; intros rows' H; simpl in H;
    [discriminate|].
  simpl. destruct (Z.eqb k k0) eqn:E.
  - destruct (f v) as [v'|] eqn:Ef; inversion H; subst.
    exists v, v'. simpl. rewrite E. auto.
  - destruct (assoc_update Z.eqb k f rest) as [rest'|] eqn:Er; inversion H; subst.
    simpl. rewrite E. apply IH. reflexivity.
Qed.

Lemma row_get_update_other k k' f rows rows' :
  assoc_update Z.eqb k f rows = Ok rows' -> k' <> k ->
  row_get k' rows' = row_get k' rows.
Proof.
  intros H Hne. revert rows' H.
  induction rows as [|[k0 v] rest IH]; intros rows' H; simpl in H; [discriminate|].
  destruct (Z.eqb k k0) eqn:E.
  - apply Z.eqb_eq in E. subst k0.
    destruct (f v); inversion H; subst. simpl.
    destruct (Z.eqb_spec k' k); [contradiction|reflexivity].
  - destruct (assoc_update Z.eqb k f rest) as [rest'|] eqn:Er; inversion H; subst.
    simpl. destruct (Z.eqb k' k0); [reflexivity|]. apply IH. reflexivity.
Qed.

Lemma add_book_rows cat su item su' :
  add_book cat su item = Ok su' ->
  forall s r, row_books su' s r =
    row_books su s r ++
    (if String.eqb (fst (classify_item cat item)) s
        && Z.eqb (snd (classify_item cat item)) r
     then [entry_of item] else []).
Proof.
  unfold add_book. destruct (get_or "title" "" item) as [t0|]; [|discriminate].
  destruct (classify_item cat item) as [s0 r0]. cbv zeta.
  intros H s r. simpl fst; simpl snd.
  destruct (String.eqb_spec s0 s) as [<-|Hs].
  - destruct (lookup_update_same _ _ _ _ H) as [v [v' [Hv [Hf Hv']]]].
    unfold row_books. rewrite Hv, Hv'.
    destruct (assoc_update Z.eqb r0 _ (su_rows v)) as [rows'|] eqn:Er;
      simpl in Hf; inversion Hf; subst; simpl.
    destruct (Z.eqb_spec r0 r) as [<-|Hr].
    + destruct (row_get_update_same _ _ _ _ Er) as [ru [ru' [Hru [Hg Hru']]]].
      rewrite Hru, Hru'. inversion Hg. reflexivity.
    + rewrite (row_get_update_other _ _ _ _ _ Er (not_eq_sym Hr)).
      now rewrite app_nil_r.
  - rewrite andb_false_l, app_nil_r. unfold row_books.
    now rewrite (lookup_update_other _ _ _ _ _ H (not_eq_sym Hs)).
Qed.

Lemma process_items_rows cat items : forall su su',
  process_items cat su items = Ok su' ->
  forall s r, row_books su' s r =
    row_books su s r ++ map entry_of (filter (targets_row cat s r) items).
Proof.
  induction items as [|item rest IH]; intros su su' H s r; simpl in H.
  - inversion H; subst. simpl. now rewrite app_nil_r.
  - unfold dict_index in H. simpl. unfold targets_row at 1, is_book.
    destruct (dict_get "item_type" item) as [ty|]; simpl in H; [|discriminate].
    destruct (value_is ty "book").
    + destruct (add_book cat su item) as [su1|] eqn:Ea; simpl in H; [|discriminate].
      rewrite (IH _ _ H), (add_book_rows _ _ _ _ Ea). simpl.
      destruct (String.eqb (fst (classify_item cat item)) s
                && Z.eqb (snd (classify_item cat item)) r); simpl;
        now rewrite <- app_assoc.
    + exact (IH _ _ H s r).
Qed.

Lemma finish_all_lookup su su' :
  finish_all su = Ok su' ->
  forall s, option_map su_rows (lookup_shelf s su') = option_map su_rows (lookup_shelf s su).
Proof.
  revert su'. induction su as [|[id sh] rest IH]; intros su' H s; simpl in H.
  - inversion H; reflexivity.
  - unfold finish_shelf, py_div in H.
    destruct (Qeq_bool _ 0); simpl in H; [discriminate|].
    destruct (finish_all rest) as [rest'|] eqn:E; simpl in H; inversion H; subst.
    simpl. destruct (String.eqb s id); [reflexivity|]. apply IH. reflexivity.
Qed.

Lemma row_books_finish su su' s r :
  finish_all su = Ok su' -> row_books su' s r = row_books su s r.
Proof.
  intros H. pose proof (finish_all_lookup _ _ H s) as E. unfold row_books.
  destruct (lookup_shelf s su'), (lookup_shelf s su); simpl in E;
    try discriminate; [|reflexivity].
  inversion E as [E']. now rewrite E'.
Qed.

Lemma row_get_fresh r l :
  row_get r (map (fun k => (k, mkRow 0 [])) l) = None \/
  row_get r (map (fun k => (k, mkRow 0 [])) l) = Some (mkRow 0 []).
Proof.
  induction l as [|k l IH]; simpl; [auto|]. destruct (Z.eqb r k); auto.
Qed.

Lemma lookup_init s l :
  lookup_shelf s (map (fun '(id, d) => (id, init_shelf d)) l) = None \/
  exists d, lookup_shelf s (map (fun '(id, d) => (id, init_shelf d)) l)
            = Some (init_shelf d).
Proof.
  induction l as [|[id d] l IH]; simpl; [auto|].
  destruct (String.eqb s id); eauto.
Qed.

Lemma row_books_init s r : row_books init_usage s r = [].
Proof.
  unfold row_books, init_usage.
  destruct (lookup_init s SHELF_DIMENSIONS) as [E|[d E]]; rewrite E; [reflexivity|].
  simpl. destruct (row_get_fresh r (range1 (dim_rows d))) as [E'|E']; rewrite E';
    reflexivity.
Qed.

(** Every row of [calculate_space_usage]'s result lists exactly the book
    records classified to that (shelf, row), in input order, each as its
    entry (title or "Unknown", creators or "Unknown", pages, width, record):
    each book is in one row and no row holds anything else. *)
Theorem calculate_space_usage_row_items (cat : categorizer) (items : list record)
        (su : usage) :
  calculate_space_usage cat items = Ok su ->
  forall s r, row_books su s r = map entry_of (filter (targets_row cat s r) items).
Proof.
  unfold calculate_space_usage. intros H s r.
  destruct (process_items cat init_usage items) as [su0|] eqn:E; simpl in H;
    [|discriminate].
  rewrite (row_books_finish _ _ _ _ H), (process_items_rows _ _ _ _ E), row_books_init.
  reflexivity.
Qed.

Lemma calculate_space_usage_row_items_witness :
  calculate_space_usage balanced_categorizer sample_items =
    Ok (match calculate_space_usage balanced_categorizer sample_items with
        | Ok su => su | Err _ => [] end) /\
  row_books (match calculate_space_usage balanced_categorizer sample_items with
             | Ok su => su | Err _ => [] end) "hallway" 1
  = map entry_of (filter (targets_row balanced_categorizer "hallway" 1) sample_items).
Proof.
  split; [vm_compute; reflexivity|].
  apply (calculate_space_usage_row_items balanced_categorizer sample_items).
  vm_compute. reflexivity.
Defined.

End RowContents.

Module RowSums.
Local Open Scope list_scope.

Lemma books_width_bounds items :
  (1 # 2) * inject_Z (Z.of_nat (length (filter is_book items)))
    <= books_width_total items /\
  books_width_total items <= 2 * inject_Z (Z.of_nat (length (filter is_book items))).
Proof.
  induction items as [|item rest IH]; [split; unfold Qle; simpl; lia|].
  rewrite Usage.books_width_total_cons. simpl filter. destruct (is_book item).
  - simpl length. rewrite Nat2Z.inj_succ, <- Z.add_1_r, inject_Z_plus.
    change (inject_Z 1) with 1.
    destruct (WidthBounds.width_between (Some (item_pages item))). destruct IH. split; lra.
  - exact IH.
Qed.

(** The widths accumulated over all rows lie between half an inch and two
    inches per book record of the input. *)
Theorem calculate_space_usage_total_bounds (cat : categorizer) (items : list record)
        (su : usage) :
  calculate_space_usage cat items = Ok su ->
  (1 # 2) * inject_Z (Z.of_nat (length (filter is_book items))) <= usage_rows_total su /\
  usage_rows_total su <= 2 * inject_Z (Z.of_nat (length (filter is_book items))).
Proof.
  unfold calculate_space_usage. intros H.
  destruct (process_items cat init_usage items) as [su0|] eqn:E; simpl in H;
    [|discriminate].
  rewrite (Usage.finish_all_rows _ _ H).
  pose proof (Usage.process_items_sum _ _ _ _ E) as Hs.
  pose proof Usage.init_usage_total as H0.
  destruct (books_width_bounds items). split; lra.
Qed.

Lemma calculate_space_usage_total_bounds_witness :
  calculate_space_usage balanced_categorizer sample_items =
    Ok (match calculate_space_usage balanced_categorizer sample_items with
        | Ok su => su | Err _ => [] end) /\
  (1 # 2) * inject_Z (Z.of_nat (length (filter is_book sample_items)))
    <= usage_rows_total (match calculate_space_usage balanced_categorizer sample_items
                         with Ok su => su | Err _ => [] end) /\
  usage_rows_total (match calculate_space_usage balanced_categorizer sample_items
                    with Ok su => su | Err _ => [] end)
    <= 2 * inject_Z (Z.of_nat (length (filter is_book sample_items))).
Proof.
  split; [vm_compute; reflexivity|].
  apply (calculate_space_usage_total_bounds balanced_categorizer sample_items).
  vm_compute. reflexivity.
Defined.

End RowSums.

Module AdaptiveShelf.
Local Open Scope list_scope.

Lemma calculate_ok_of_targets cat items :
  (forall item, in_targets (classify_item cat item) = true) ->
  Forall has_item_type items ->
  Forall book_titled items ->
  exists su, calculate_space_usage cat items = Ok su /\ shape su = configured_shape.
Proof.
  intros Hv Hty Hti. unfold calculate_space_usage.
  destruct (Usage.process_items_ok cat items init_usage Hv Hty Hti Usage.init_usage_shape)
    as [su0 E].
  rewrite E. simpl.
  pose proof (Usage.process_items_shape _ _ _ _ E) as Hsh.
  rewrite Usage.init_usage_shape in Hsh.
  destruct (Usage.finish_all_ok su0 (Usage.configured_available_nonzero _ Hsh))
    as [su' [Hf Hsh']].
  exists su'. split; [exact Hf|]. rewrite Hsh'. exact Hsh.
Qed.

Lemma first_under_in ud b l t : first_under ud b l = Some t -> In t l.
Proof.
  induction l as [|[s r] l IH]; simpl; [discriminate|].
  destruct (py_lt (util_get ud s) b); [intros H; inversion H; now left|].
  intros H. right. exact (IH H).
Qed.

Lemma least_utilized_in ud ids : forall m best,
  least_utilized ud ids m best = best \/
  exists s, In s ids /\ least_utilized ud ids m best = (s, 1%Z).
Proof.
  induction ids as [|x rest IH]; intros m best; simpl; [now left|].
  destruct (match m with None => true | Some m0 => py_lt (util_get ud x) m0 end).
  - destruct (IH (Some (util_get ud x)) (x, 1%Z)) as [->|[s [Hs ->]]];
      right; [exists x|exists s]; auto.
  - destruct (IH m best) as [->|[s [Hs ->]]]; [now left|]. right. exists s. auto.
Qed.

Lemma dims_targets s : In s (map fst SHELF_DIMENSIONS) -> in_targets (s, 1%Z) = true.
Proof.
  simpl. intros H. repeat destruct H as [<-|H]; try reflexivity; contradiction.
Qed.

Lemma find_best_targets ud pref fb :
  (forall t, In t pref -> in_targets t = true) ->
  (forall t, In t fb -> in_targets t = true) ->
  in_targets (find_best_shelf ud pref fb) = true.
Proof.
  intros Hp Hf. unfold find_best_shelf.
  destruct (first_under ud 85 pref) as [t|] eqn:E1;
    [exact (Hp _ (first_under_in _ _ _ _ E1))|].
  destruct (first_under ud 95 fb) as [t|] eqn:E2;
    [exact (Hf _ (first_under_in _ _ _ _ E2))|].
  destruct (least_utilized_in ud (map fst SHELF_DIMENSIONS) None ("office_b", 1%Z))
    as [->|[s [Hs ->]]]; [reflexivity|exact (dims_targets _ Hs)].
Qed.

Lemma adaptive_targets ud iteration item :
  in_targets (classify_item (create_adaptive_categorizer ud iteration) item) = true.
Proof.
  cbv beta zeta delta [classify_item create_adaptive_categorizer adaptive_categorize_book].
  repeat match goal with |- context [if ?b then _ else _] => destruct b end;
    apply find_best_targets; intros t Ht; simpl in Ht;
    repeat destruct Ht as [<-|Ht]; try reflexivity; contradiction.
Qed.

(** Whatever utilization data it is built from, the adaptive categorizer
    only names initialised (shelf, row) pairs, so [calculate_space_usage]
    with it succeeds on records that all carry an [item_type] and in which
    no book has a [None] title, with every shelf of the configuration in
    order. *)
Theorem adaptive_calculate_space_usage_ok (utilization_data : usage) (iteration : Z)
        (items : list record) (Hty : Forall has_item_type items)
        (Hti : Forall book_titled items) :
  (forall item, in_targets (classify_item
                              (create_adaptive_categorizer utilization_data iteration)
                              item) = true) /\
  exists su, calculate_space_usage (create_adaptive_categorizer utilization_data iteration)
                                   items = Ok su /\
             shape su = configured_shape.
Proof.
  split; [apply adaptive_targets|].
  apply calculate_ok_of_targets; [apply adaptive_targets|exact Hty|exact Hti].
Qed.

Lemma adaptive_calculate_space_usage_ok_witness :
  Forall has_item_type sample_items /\ Forall book_titled sample_items /\
  exists su, calculate_space_usage
               (create_adaptive_categorizer
                  (match calculate_space_usage balanced_categorizer sample_items with
                   | Ok su => su | Err _ => [] end) 1) sample_items = Ok su /\
             shape su = configured_shape.
Proof.
  assert (H : Forall has_item_type sample_items).
  { repeat constructor; unfold has_item_type; simpl; discriminate. }
  assert (Ht : Forall book_titled sample_items).
  { repeat constructor; unfold book_titled; simpl; intros; discriminate. }
  split; [exact H|]. split; [exact Ht|].
  exact (proj2 (adaptive_calculate_space_usage_ok _ 1 sample_items H Ht)).
Defined.

Lemma py_lt_true a b : py_lt a b = true -> a < b.
Proof.
  unfold py_lt. destruct (Qle_bool b a) eqn:E; simpl; [discriminate|].
  intros _. apply Qnot_le_lt. intros H. apply Qle_bool_iff in H. congruence.
Qed.

Lemma py_lt_false a b : py_lt a b = false -> b <= a.
Proof.
  unfold py_lt. destruct (Qle_bool b a) eqn:E; simpl; [|discriminate].
  intros _. now apply Qle_bool_iff.
Qed.

Lemma first_under_none ud b l :
  (forall t, In t l -> b <= util_get ud (fst t)) -> first_under ud b l = None.
Proof.
  induction l as [|[s r] l IH]; intros H; simpl; [reflexivity|].
  assert (Hb : Qle_bool b (util_get ud s) = true).
  { apply Qle_bool_iff. exact (H (s, r) (or_introl eq_refl)). }
  unfold py_lt. rewrite Hb. simpl. apply IH. intros t Ht. apply H. now right.
Qed.

Lemma least_utilized_some ud ids : forall m best,
  (least_utilized ud ids (Some m) best = best /\
   forall x, In x ids -> m <= util_get ud x) \/
  exists pre s post, ids = pre ++ s :: post /\
    least_utilized ud ids (Some m) best = (s, 1%Z) /\ util_get ud s < m /\
    (forall x, In x pre -> util_get ud s < util_get ud x) /\
    (forall x, In x post -> util_get ud s <= util_get ud x).
Proof.
  induction ids as [|x rest IH]; intros m best; simpl.
  - left. split; [reflexivity|contradiction].
  - destruct (py_lt (util_get ud x) m) eqn:Ex.
    + apply py_lt_true in Ex. right.
      destruct (IH (util_get ud x) (x, 1%Z))
        as [[-> Hall]|[pre [s [post [-> [Hr [Hs [Hpre Hpost]]]]]]]].
      * exists [], x, rest. repeat split; auto. contradiction.
      * exists (x :: pre), s, post. repeat split; auto.
        -- lra.
        -- intros y [<-|Hy]; auto.
    + apply py_lt_false in Ex.
      destruct (IH m best)
        as [[-> Hall]|[pre [s [post [-> [Hr [Hs [Hpre Hpost]]]]]]]].
      * left. split; [reflexivity|]. intros y [<-|Hy]; auto.
      * right. exists (x :: pre), s, post. repeat split; auto.
        intros y [<-|Hy]; [lra|auto].
Qed.

(** When no preferred (shelf, row) is under 85% and no fallback one under
    95%, [find_best_shelf] returns row 1 of the least utilized shelf,
    scanning the shelves in configuration order: the first shelf of least
    utilization wins ties. *)
Theorem find_best_shelf_last_resort (utilization_data : usage)
        (preferred fallback : list (string * Z))
        (Hp : forall t, In t preferred -> 85 <= util_get utilization_data (fst t))
        (Hf : forall t, In t fallback -> 95 <= util_get utilization_data (fst t)) :
  exists pre s post, map fst SHELF_DIMENSIONS = pre ++ s :: post /\
    find_best_shelf utilization_data preferred fallback = (s, 1%Z) /\
    (forall x, In x pre -> util_get utilization_data s < util_get utilization_data x) /\
    (forall x, In x post -> util_get utilization_data s <= util_get utilization_data x).
Proof.
  unfold find_best_shelf.
  rewrite (first_under_none _ _ _ Hp), (first_under_none _ _ _ Hf).
  remember (map fst SHELF_DIMENSIONS) as ids eqn:Hids.
  destruct ids as [|x rest]; [discriminate|]. simpl.
  destruct (least_utilized_some utilization_data rest (util_get utilization_data x) (x, 1%Z))
    as [[-> Hall]|[pre [s [post [-> [Hr [Hs [Hpre Hpost]]]]]]]].
  - exists [], x, rest. repeat split; auto. contradiction.
  - exists (x :: pre), s, post. repeat split; auto.
    intros y [<-|Hy]; auto.
Qed.

Lemma find_best_shelf_last_resort_witness :
  let ud := [("office_a", mkShelf [] 0 160 97)] in
  (forall t, In t [("office_a", 1%Z)] -> 85 <= util_get ud (fst t)) /\
  (forall t, In t [("office_a", 3%Z)] -> 95 <= util_get ud (fst t)) /\
  exists pre s post, map fst SHELF_DIMENSIONS = pre ++ s :: post /\
    find_best_shelf ud [("office_a", 1%Z)] [("office_a", 3%Z)] = (s, 1%Z) /\
    (forall x, In x pre -> util_get ud s < util_get ud x) /\
    (forall x, In x post -> util_get ud s <= util_get ud x).
Proof.
  intros ud.
  assert (H1 : forall t, In t [("office_a", 1%Z)] -> 85 <= util_get ud (fst t)).
  { intros t [<-|[]]. apply Qle_bool_iff. vm_compute. reflexivity. }
  assert (H2 : forall t, In t [("office_a", 3%Z)] -> 95 <= util_get ud (fst t)).
  { intros t [<-|[]]. apply Qle_bool_iff. vm_compute. reflexivity. }
  split; [exact H1|]. split; [exact H2|].
  exact (find_best_shelf_last_resort ud _ _ H1 H2).
Defined.

End AdaptiveShelf.

Module Pipeline.
Local Open Scope list_scope.

Lemma collected_recognized files r :
  In r (fst (collect_items files [] [])) -> recognized r = true.
Proof.
  rewrite Ingest.collect_items_spec. simpl. intros H.
  apply in_flat_map in H. destruct H as [f [_ Hr]].
  unfold parse_csv_file in Hr. rewrite Ingest.read_rows_spec in Hr. simpl in Hr.
  apply filter_In in Hr. tauto.
Qed.

Lemma recognized_typed r : recognized r = true -> has_item_type r.
Proof. unfold recognized, has_item_type. destruct (dict_get "item_type" r); congruence. Qed.

Lemma items_of_kind_ok k l :
  Forall has_item_type l -> items_of_kind k l = Ok (filter (kind_is k) l).
Proof.
  induction l as [|r l IH]; intros H; [reflexivity|].
  inversion H as [|? ? Hr Hl]; subst. simpl. unfold dict_index, kind_is at 1.
  unfold has_item_type in Hr.
  destruct (dict_get "item_type" r) as [ty|]; [|contradiction]. simpl.
  rewrite (IH Hl). simpl. destruct (value_is ty k); reflexivity.
Qed.

Lemma collected_typed files :
  Forall has_item_type (fst (collect_items files [] [])).
Proof.
  apply Forall_forall. intros r Hr. apply recognized_typed.
  exact (collected_recognized _ _ Hr).
Qed.

Lemma process_items_attr cat items : forall su e,
  (forall item, in_targets (classify_item cat item) = true) ->
  Forall has_item_type items ->
  shape su = configured_shape ->
  process_items cat su items = Err e -> e = AttributeError.
Proof.
  induction items as [|item rest IH]; intros su e Hcat Hty Hsh H; simpl in H;
    [discriminate|].
  inversion Hty as [|? ? Hit Hrest]; subst. unfold dict_index in H.
  unfold has_item_type in Hit.
  destruct (dict_get "item_type" item) as [ty|]; [|contradiction]. simpl in H.
  destruct (value_is ty "book").
  - destruct (get_or "title" "" item) as [t0|] eqn:Et.
    + destruct (Usage.add_book_ok cat su item Hsh ltac:(congruence) (Hcat item))
        as [su1 Ea].
      rewrite Ea in H. simpl in H. apply (IH su1 e Hcat Hrest); [|exact H].
      rewrite (Usage.add_book_shape _ _ _ _ Ea). exact Hsh.
    + unfold add_book in H. rewrite Et in H. simpl in H. inversion H; auto.
  - exact (IH su e Hcat Hrest Hsh H).
Qed.

Lemma process_items_titled cat items : forall su su',
  process_items cat su items = Ok su' -> Forall book_titled items.
Proof.
  induction items as [|item rest IH]; intros su su' H; simpl in H; [constructor|].
  unfold dict_index in H.
  destruct (dict_get "item_type" item) as [ty|] eqn:Ety; simpl in H; [|discriminate].
  destruct (value_is ty "book") eqn:Eb.
  - destruct (add_book cat su item) as [su1|] eqn:Ea; simpl in H; [|discriminate].
    constructor; [|exact (IH _ _ H)].
    unfold book_titled. intros _ Ht.
    assert (Hg : get_or "title" "" item = VNone) by (unfold get_or; rewrite Ht; reflexivity).
    unfold add_book in Ea. rewrite Hg in Ea. discriminate.
  - constructor; [|exact (IH _ _ H)].
    unfold book_titled, is_book. rewrite Ety, Eb. discriminate.
Qed.

(** The organizer's pipeline up to the report raises no exception but
    AttributeError, and it succeeds exactly when no collected book has a
    [None] title (a short CSV row): then the books of the collected items
    (those whose [item_type] is ["book"]) are balanced with the balanced
    categorizer to a usage with every configured shelf, in order, in one
    iteration. *)
Theorem organize_outcome (files : list csv_file) :
  (forall e, snd (organize files) = Err e -> e = AttributeError) /\
  ((exists su, snd (organize files) = Ok (su, 1%Z) /\
     calculate_space_usage balanced_categorizer
       (filter is_book (fst (organize files))) = Ok su /\
     shape su = configured_shape) <->
   Forall book_titled (fst (organize files))).
Proof.
  pose proof (collected_typed files) as Hty.
  unfold organize. destruct (collect_items files [] []) as [all log]. simpl in *.
  rewrite (items_of_kind_ok "book" all Hty). simpl.
  change (filter (kind_is "book") all) with (filter is_book all).
  assert (Hb : Forall has_item_type (filter is_book all)).
  { apply Forall_forall. intros r Hr. apply filter_In in Hr.
    rewrite Forall_forall in Hty. apply Hty. tauto. }
  unfold iterative_balance. split; [|split].
  - intros e. unfold calculate_space_usage.
    destruct (process_items balanced_categorizer init_usage (filter is_book all))
      as [su0|e0] eqn:E; simpl.
    + pose proof (Usage.process_items_shape _ _ _ _ E) as Hsh.
      rewrite Usage.init_usage_shape in Hsh.
      destruct (Usage.finish_all_ok su0 (Usage.configured_available_nonzero _ Hsh))
        as [su' [Hf _]].
      rewrite Hf. simpl. intros H; discriminate H.
    + intros H; inversion H; subst.
      exact (process_items_attr _ _ _ _ Usage.balanced_categorizer_targets Hb
               Usage.init_usage_shape E).
  - intros [su [_ [Hc _]]]. unfold calculate_space_usage in Hc.
    destruct (process_items balanced_categorizer init_usage (filter is_book all))
      as [su0|e0] eqn:E; simpl in Hc; [|discriminate].
    apply process_items_titled in E. rewrite Forall_forall in E.
    apply Forall_forall. intros r Hr. unfold book_titled. intros Hbk.
    exact (E r (proj2 (filter_In _ _ _) (conj Hr Hbk)) Hbk).
  - intros Hti.
    assert (Hbt : Forall book_titled (filter is_book all)).
    { apply Forall_forall. intros r Hr. apply filter_In in Hr.
      rewrite Forall_forall in Hti. apply Hti. tauto. }
    destruct (AdaptiveShelf.calculate_ok_of_targets balanced_categorizer
                (filter is_book all) Usage.balanced_categorizer_targets Hb Hbt)
      as [su [E Hs]].
    exists su. rewrite E. simpl. auto.
Qed.

Lemma kinds_partition l :
  Forall (fun r => recognized r = true) l ->
  (length (filter (kind_is "book") l) + length (filter (kind_is "videogame") l)
   + length (filter (kind_is "music") l) = length l)%nat.
Proof.
  induction l as [|r l IH]; intros H; [reflexivity|].
  inversion H as [|? ? Hr Hl]; subst. specialize (IH Hl).
  simpl.
  destruct (kind_is "book" r) eqn:E1, (kind_is "videogame" r) eqn:E2,
           (kind_is "music" r) eqn:E3; simpl; try lia;
    unfold recognized, kind_is, value_is in *;
    destruct (dict_get "item_type" r) as [[k|]|]; try discriminate;
    simpl in Hr; rewrite ?E1, ?E2, ?E3 in Hr; try discriminate;
    repeat match goal with Hx : String.eqb _ _ = true |- _ =>
                             apply String.eqb_eq in Hx end;
    congruence.
Qed.

(** The "Collection Summary" counts never fail on the collected items, the
    book count is the number of records passed to the balancing, and the
    three counts add up to the number of collected items. *)
Theorem summary_counts_partition (files : list csv_file) :
  exists b v m, summary_counts (fst (organize files)) = Ok (b, v, m) /\
    b = length (filter is_book (fst (organize files))) /\
    (b + v + m = length (fst (organize files)))%nat.
Proof.
  pose proof (collected_typed files) as Hty.
  assert (Hrec : Forall (fun r => recognized r = true) (fst (collect_items files [] []))).
  { apply Forall_forall. intros r Hr. exact (collected_recognized _ _ Hr). }
  unfold organize. destruct (collect_items files [] []) as [all log]. simpl in *.
  unfold summary_counts.
  rewrite !(items_of_kind_ok _ all Hty). simpl.
  do 3 eexists. split; [reflexivity|]. split; [reflexivity|].
  exact (kinds_partition all Hrec).
Qed.

End Pipeline.
